(** * OpenHexa CLI: the command handlers of [openhexa/cli.py]

    A shallow embedding of the command bodies of [src/openhexa/cli.py]
    (workspace registry, pipeline push, pipeline listing) together with the
    properties stated for them.

    The handlers are effectful Python: they read and write the configuration
    file, print to the terminal, prompt the operator, call the backend and
    leave through [sys.exit] or an exception.  They are embedded in a small
    monad that threads the persisted configuration and the remote state,
    collects a chronological log of the observable events and ends in a
    result that is a normal return, a [sys.exit] or a raised exception. *)

From Stdlib Require Import String Ascii List ZArith Bool Lia DecimalString.
From Stdlib Require DecimalZ DecimalPos.
Import ListNotations.
Open Scope list_scope.
Open Scope string_scope.

(** ** Insertion-ordered dictionaries

    A Python [dict] with string keys (and a section of the configuration,
    which behaves like one): an association list in insertion order, since
    the handlers print keys in iteration order. *)

Definition dict (V : Type) : Type := list (string * V).

(** [d.get(k)] *)
Fixpoint dict_get {V : Type} (k : string) (d : dict V) : option V :=
  match d with
  | [] => None
  | (k', v) :: d' => if String.eqb k k' then Some v else dict_get k d'
  end.

(** [k in d] *)
Definition dict_mem {V : Type} (k : string) (d : dict V) : bool :=
  match dict_get k d with
  | Some _ => true
  | None => false
  end.

(** [d.update({k: v})]: an existing key keeps its position, a new key goes
    last. *)
Fixpoint dict_set {V : Type} (k : string) (v : V) (d : dict V) : dict V :=
  match d with
  | [] => [(k, v)]
  | (k', v') :: d' =>
      if String.eqb k k' then (k', v) :: d' else (k', v') :: dict_set k v d'
  end.

(** [del d[k]], used by the handlers only after a membership test. *)
Fixpoint dict_del {V : Type} (k : string) (d : dict V) : dict V :=
  match d with
  | [] => []
  | (k', v) :: d' =>
      if String.eqb k k' then dict_del k d' else (k', v) :: dict_del k d'
  end.

(** [d.keys()] *)
Definition dict_keys {V : Type} (d : dict V) : list string := map fst d.

(** ** Data model *)

(** Modelled from the spec: the configuration object returned by
    [open_config] (module [openhexa.api], absent from the sources at hand).
    The handlers use it as a sectioned store: section [openhexa] with the
    options [debug], [url] and [current_workspace], section [workspaces]
    mapping slug to token, and further sections named [pipelines.<slug>].
    Slugs are compared as exact strings, as in the spec's
    [mapping<slug: string, token: string>]; [open_config] guarantees that
    the two fixed sections and their options are present. *)
Record Config : Type := mkConfig {
  debug : string;
  url : string;
  current_workspace : string;
  workspaces : dict string;
  sections : dict (dict string)
}.

Definition set_debug (v : string) (c : Config) : Config :=
  mkConfig v (url c) (current_workspace c) (workspaces c) (sections c).

Definition set_url (v : string) (c : Config) : Config :=
  mkConfig (debug c) v (current_workspace c) (workspaces c) (sections c).

Definition set_current_workspace (v : string) (c : Config) : Config :=
  mkConfig (debug c) (url c) v (workspaces c) (sections c).

Definition set_workspaces (w : dict string) (c : Config) : Config :=
  mkConfig (debug c) (url c) (current_workspace c) w (sections c).

Definition set_sections (s : dict (dict string)) (c : Config) : Config :=
  mkConfig (debug c) (url c) (current_workspace c) (workspaces c) s.

(** The configuration of a first run: no workspace, none active. *)
Definition default_config (backend : string) : Config :=
  mkConfig "False" backend "" [] [].

(** A pipeline as listed by the backend:
    [{code, name, currentVersion: {number?}}]. *)
Record Version : Type := mkVersion { number : option Z }.

Record PipelineInfo : Type := mkPipelineInfo {
  pi_code : string;
  pi_name : string;
  currentVersion : Version
}.

(** Whether a listed pipeline carries the code [c]. *)
Definition by_code (c : string) (p : PipelineInfo) : bool :=
  String.eqb (pi_code p) c.

(** The object returned by [import_pipeline]; the handlers read [.code]. *)
Record Pipeline : Type := mkPipeline { code : string }.

(** What the operator types at a yes/no prompt. *)
Inductive reply : Type :=
| Yes
| No
| Enter
| Eof.

(** Observable events of a command run, in the order they happen. *)
Inductive event : Type :=
| Echo (err : bool) (msg : string)
| EchoPipelines (ps : list PipelineInfo)
| Confirm (text : string) (r : reply)
| SaveConfig (c : Config)
| ImportPipeline (path : string)
| GetWorkspace (slug token : string)
| GetPipelines
| GetPipeline (code : string)
| CreatePipeline (code : string)
| UploadPipeline (path : string) (files : list string) (returned : option Z).

Definition is_remote_call (e : event) : bool :=
  match e with
  | GetWorkspace _ _ | GetPipelines | GetPipeline _
  | CreatePipeline _ | UploadPipeline _ _ _ => true
  | _ => false
  end.

Definition is_create (e : event) : bool :=
  match e with CreatePipeline _ => true | _ => false end.

Definition is_upload (e : event) : bool :=
  match e with UploadPipeline _ _ _ => true | _ => false end.

Definition is_confirm (e : event) : bool :=
  match e with Confirm _ _ => true | _ => false end.

Definition is_save (e : event) : bool :=
  match e with SaveConfig _ => true | _ => false end.

Definition count (p : event -> bool) (t : list event) : nat :=
  length (filter p t).

(** ** Text helpers *)

(** Python [str] on an integer. *)
Definition str_int (n : Z) : string := NilZero.string_of_int (Z.to_int n).

(** Python [str] on a boolean. *)
Definition str_bool (b : bool) : string := if b then "True" else "False".

(** Python truthiness of [d.get("number")]: [None] and [0] are false. *)
Definition truthy (v : option Z) : bool :=
  match v with
  | Some n => negb (Z.eqb n 0)
  | None => false
  end.

(** Python [str] on what [d.get("number")] returns. *)
Definition str_value (v : option Z) : string :=
  match v with
  | Some n => str_int n
  | None => "None"
  end.

Definition esc : string := String (ascii_of_nat 27) "".
Definition newline : string := String (ascii_of_nat 10) "".

(** [click.style(s, bold=True)] *)
Definition style_bold (s : string) : string :=
  esc ++ "[1m" ++ s ++ esc ++ "[0m".

(** [click.style(s, fg='bright_blue', underline=True)] *)
Definition style_link (s : string) : string :=
  esc ++ "[94m" ++ esc ++ "[4m" ++ s ++ esc ++ "[0m".

(** The name of the section kept for a workspace: [f"pipelines.{slug}"]. *)
Definition pipelines_section (slug : string) : string := "pipelines." ++ slug.
Arguments pipelines_section : simpl never.

(** The question asked before a pipeline is created:
    [f"Create pipeline {style(code, bold)} in workspace {style(workspace, bold)}?"]. *)
Definition create_prompt (workspace code : string) : string :=
  "Create pipeline " ++ style_bold code ++ " in workspace "
  ++ style_bold workspace ++ "?".
Arguments create_prompt : simpl never.

(** [needle in haystack] on strings. *)
Definition contains (haystack needle : string) : Prop :=
  exists pre post, haystack = pre ++ needle ++ post.

(** ** The command monad *)

(** Python exceptions seen by the handlers: [click.Abort] (raised by a
    declined [click.confirm(..., abort=True)]) or an error of a
    collaborator. *)
Inductive exn (E : Type) : Type :=
| ClickAbort
| Error (e : E).
Arguments ClickAbort {E}.
Arguments Error {E} e.

Inductive Result (E A : Type) : Type :=
| Ok (a : A)
| Exit (status : Z)
| Raise (e : exn E).
Arguments Ok {E A} a.
Arguments Exit {E A} status.
Arguments Raise {E A} e.

(** Exit status of the process: [sys.exit(n)] gives [n]; an uncaught
    exception and click's handling of [click.Abort] both give 1. *)
Definition exit_status {E A : Type} (r : Result E A) : Z :=
  match r with
  | Ok _ => 0
  | Exit n => n
  | Raise _ => 1
  end.

(** What outlives a command: the configuration file and the backend. *)
Record State (Remote : Type) : Type := mkState {
  disk : Config;
  remote : Remote
}.
Arguments mkState {Remote} disk remote.
Arguments disk {Remote} s.
Arguments remote {Remote} s.

Definition M (Remote E A : Type) : Type :=
  State Remote -> Result E A * State Remote * list event.

Definition ret {Remote E A : Type} (a : A) : M Remote E A :=
  fun s => (Ok a, s, []).

Definition bind {Remote E A B : Type}
  (m : M Remote E A) (f : A -> M Remote E B) : M Remote E B :=
  fun s =>
    match m s with
    | (Ok a, s1, t1) =>
        match f a s1 with
        | (r, s2, t2) => (r, s2, (t1 ++ t2)%list)
        end
    | (Exit n, s1, t1) => (Exit n, s1, t1)
    | (Raise e, s1, t1) => (Raise e, s1, t1)
    end.

Definition result_of {Remote E A : Type}
  (out : Result E A * State Remote * list event) : Result E A :=
  fst (fst out).

Definition state_of {Remote E A : Type}
  (out : Result E A * State Remote * list event) : State Remote :=
  snd (fst out).

Definition trace_of {Remote E A : Type}
  (out : Result E A * State Remote * list event) : list event :=
  snd out.

Declare Scope cmd_scope.
Delimit Scope cmd_scope with cmd.
Notation "x <- m ;; k" := (bind m (fun x => k))
  (at level 100, m at next level, right associativity) : cmd_scope.
Notation "m ;; k" := (bind m (fun _ => k))
  (at level 100, right associativity) : cmd_scope.
Open Scope cmd_scope.

(** [sys.exit(n)] *)
Definition sys_exit {Remote E A : Type} (n : Z) : M Remote E A :=
  fun s => (Exit n, s, []).

(** [raise e] *)
Definition raise {Remote E A : Type} (e : exn E) : M Remote E A :=
  fun s => (Raise e, s, []).

(** [try: body / except Exception as e: handler / else: orelse].  The
    handler sees every exception of the body; [sys.exit] is not an
    [Exception] and passes through; the [else] branch is not protected. *)
Definition try_else {Remote E A B : Type}
  (body : M Remote E A) (handler : exn E -> M Remote E B)
  (orelse : A -> M Remote E B) : M Remote E B :=
  fun s =>
    match body s with
    | (Ok a, s1, t1) =>
        match orelse a s1 with
        | (r, s2, t2) => (r, s2, (t1 ++ t2)%list)
        end
    | (Exit n, s1, t1) => (Exit n, s1, t1)
    | (Raise e, s1, t1) =>
        match handler e s1 with
        | (r, s2, t2) => (r, s2, (t1 ++ t2)%list)
        end
    end.

(** [click.echo(msg)] and [click.echo(msg, err=True)] *)
Definition echo {Remote E : Type} (msg : string) : M Remote E unit :=
  fun s => (Ok tt, s, [Echo false msg]).

Definition echo_err {Remote E : Type} (msg : string) : M Remote E unit :=
  fun s => (Ok tt, s, [Echo true msg]).

(** [click.echo(workspace_pipelines)]: the raw list. *)
Definition echo_pipelines {Remote E : Type} (ps : list PipelineInfo)
  : M Remote E unit :=
  fun s => (Ok tt, s, [EchoPipelines ps]).

(** Modelled from the spec: [open_config] and [save_config] of
    [openhexa.api] (absent).  Opening reads the whole persisted
    configuration; saving overwrites it with the structure passed in. *)
Definition open_config {Remote E : Type} : M Remote E Config :=
  fun s => (Ok (disk s), s, []).

Definition save_config {Remote E : Type} (c : Config) : M Remote E unit :=
  fun s => (Ok tt, mkState c (remote s), [SaveConfig c]).

(** ** Collaborators *)

(** The functions the handlers import from [openhexa.api], whose bodies are
    not part of the sources at hand.  They are taken as parameters: a
    backend call reads the remote state and either raises or returns; the
    two mutating calls also yield the next remote state. *)
Record Api (Remote E : Type) : Type := mkApi {
  is_debug : Config -> bool;
  get_workspace : Config -> string -> string -> Remote -> E + unit;
  import_pipeline : Config -> string -> E + Pipeline;
  get_pipelines : Config -> Remote -> E + list PipelineInfo;
  get_pipeline : Config -> string -> Remote -> E + option PipelineInfo;
  create_pipeline : Config -> string -> Remote -> Remote * (E + unit);
  upload_pipeline :
    Config -> string -> list string -> Remote -> Remote * (E + Z)
}.
Arguments is_debug {Remote E} a c.
Arguments get_workspace {Remote E} a c slug token r.
Arguments import_pipeline {Remote E} a c path.
Arguments get_pipelines {Remote E} a c r.
Arguments get_pipeline {Remote E} a c code r.
Arguments create_pipeline {Remote E} a c code r.
Arguments upload_pipeline {Remote E} a c path files r.

(** The machine the command runs on: the file system seen by
    [os.path.exists] and the operator answering a prompt. *)
Record Host : Type := mkHost {
  path_exists : string -> bool;
  operator : string -> reply
}.

Section Cli.

Context {Remote E : Type}.
Variable api : Api Remote E.
Variable host : Host.

(** *** Calls, logged *)

Definition call_get_workspace (c : Config) (slug token : string) : M Remote E unit :=
  fun s =>
    match get_workspace api c slug token (remote s) with
    | inl e => (Raise (Error e), s, [GetWorkspace slug token])
    | inr _ => (Ok tt, s, [GetWorkspace slug token])
    end.

Definition call_import_pipeline (c : Config) (path : string) : M Remote E Pipeline :=
  fun s =>
    match import_pipeline api c path with
    | inl e => (Raise (Error e), s, [ImportPipeline path])
    | inr p => (Ok p, s, [ImportPipeline path])
    end.

Definition call_get_pipelines (c : Config) : M Remote E (list PipelineInfo) :=
  fun s =>
    match get_pipelines api c (remote s) with
    | inl e => (Raise (Error e), s, [GetPipelines])
    | inr ps => (Ok ps, s, [GetPipelines])
    end.

Definition call_get_pipeline (c : Config) (code : string)
  : M Remote E (option PipelineInfo) :=
  fun s =>
    match get_pipeline api c code (remote s) with
    | inl e => (Raise (Error e), s, [GetPipeline code])
    | inr o => (Ok o, s, [GetPipeline code])
    end.

Definition call_create_pipeline (c : Config) (code : string) : M Remote E unit :=
  fun s =>
    match create_pipeline api c code (remote s) with
    | (r', inl e) =>
        (Raise (Error e), mkState (disk s) r', [CreatePipeline code])
    | (r', inr _) => (Ok tt, mkState (disk s) r', [CreatePipeline code])
    end.

Definition call_upload_pipeline (c : Config) (path : string)
  (files : list string) : M Remote E Z :=
  fun s =>
    match upload_pipeline api c path files (remote s) with
    | (r', inl e) =>
        (Raise (Error e), mkState (disk s) r', [UploadPipeline path files None])
    | (r', inr n) =>
        (Ok n, mkState (disk s) r', [UploadPipeline path files (Some n)])
    end.

(** [click.confirm(text, default, abort=abort)]: an empty answer takes the
    default, end of input aborts, and with [abort] a negative answer raises
    [click.Abort]. *)
Definition click_confirm (text : string) (default abort : bool) : M Remote E bool :=
  fun s =>
    let r := operator host text in
    match r with
    | Eof => (Raise ClickAbort, s, [Confirm text r])
    | _ =>
        let rv := match r with Yes => true | No => false | _ => default end in
        if abort && negb rv
        then (Raise ClickAbort, s, [Confirm text r])
        else (Ok rv, s, [Confirm text r])
    end.

(** A [for] loop whose body is one [click.echo]. *)
Fixpoint echo_each (lines : list string) : M Remote E unit :=
  match lines with
  | [] => ret tt
  | l :: rest => echo l ;; echo_each rest
  end.

(** *** [app]: the group callback, run before every subcommand *)

Definition app (debug_flag : bool) : M Remote E unit :=
  user_config <- open_config ;;
  let user_config := set_debug (str_bool debug_flag) user_config in
  save_config user_config.

(** *** [workspaces add] *)

Definition workspaces_add (slug token : string) : M Remote E unit :=
  user_config <- open_config ;;
  (if dict_mem slug (workspaces user_config)
   then echo ("Workspace " ++ slug
              ++ " already exists. We will only update its token.")
   else echo ("Adding workspace " ++ slug)) ;;
  try_else (call_get_workspace user_config slug token)
    (fun e =>
       echo_err "Error while getting workspace. Check the slug of the workspace and the access token." ;;
       if is_debug api user_config then raise e else ret tt)
    (fun _ => ret tt) ;;
  let user_config :=
    set_workspaces (dict_set slug token (workspaces user_config)) user_config in
  let user_config := set_current_workspace slug user_config in
  save_config user_config.

(** *** [workspaces activate] *)

Definition workspaces_activate (slug : string) : M Remote E unit :=
  user_config <- open_config ;;
  if negb (dict_mem slug (workspaces user_config))
  then
    echo ("Workspace " ++ slug ++ " does not exist. Available workspaces:") ;;
    echo (String.concat ", " (dict_keys (workspaces user_config)))
  else
    echo ("Activating workspace " ++ slug) ;;
    let user_config := set_current_workspace slug user_config in
    save_config user_config.

(** *** [workspaces list] *)

Definition workspaces_list : M Remote E unit :=
  user_config <- open_config ;;
  echo "Workspaces:" ;;
  echo_each
    (map (fun slug =>
            if String.eqb slug (current_workspace user_config)
            then style_bold ("* " ++ slug ++ " (active)")
            else "* " ++ slug)
       (dict_keys (workspaces user_config))) ;;
  save_config user_config.

(** *** [workspaces rm] *)

Definition workspaces_rm (slug : string) : M Remote E unit :=
  user_config <- open_config ;;
  if negb (dict_mem slug (workspaces user_config))
  then echo ("Workspace " ++ slug ++ " does not exist")
  else
    echo ("Removing workspace " ++ slug) ;;
    let user_config :=
      set_workspaces (dict_del slug (workspaces user_config)) user_config in
    let user_config :=
      if dict_mem (pipelines_section slug) (sections user_config)
      then set_sections
             (dict_del (pipelines_section slug) (sections user_config))
             user_config
      else user_config in
    let user_config :=
      if String.eqb (current_workspace user_config) slug
      then set_current_workspace "" user_config
      else user_config in
    save_config user_config.

(** *** [config set_url] *)

Definition config_set_url (new_url : string) : M Remote E unit :=
  user_config <- open_config ;;
  let user_config := set_url new_url user_config in
  save_config user_config.

(** *** [pipelines push] *)

(** The link shown at the end of a push. *)
Definition pipeline_url (c : Config) (workspace code : string) : string :=
  url c ++ "/workspaces/" ++ workspace ++ "/pipelines/" ++ code.

Definition pipelines_push (path : string) (files : list string)
  : M Remote E unit :=
  user_config <- open_config ;;
  let workspace := current_workspace user_config in
  (if String.eqb workspace ""
   then echo_err "No workspace activated" ;; sys_exit 1
   else ret tt) ;;
  (if negb (path_exists host path)
   then echo_err (path ++ ": file not found") ;; sys_exit 1
   else ret tt) ;;
  try_else (call_import_pipeline user_config path)
    (fun e =>
       echo_err "Error while importing pipeline" ;;
       (if is_debug api user_config then raise e else ret tt) ;;
       sys_exit 1)
    (fun pipeline =>
       workspace_pipelines <- call_get_pipelines user_config ;;
       (if is_debug api user_config
        then echo_pipelines workspace_pipelines
        else ret tt) ;;
       found <- call_get_pipeline user_config (code pipeline) ;;
       match found with
       | None =>
           echo ("Pipeline " ++ style_bold (code pipeline) ++ " found in "
                 ++ path ++ " does not exist in workspace "
                 ++ style_bold workspace) ;;
           click_confirm (create_prompt workspace (code pipeline))
             true true ;;
           call_create_pipeline user_config (code pipeline)
       | Some _ => ret tt
       end ;;
       echo ("Pushing pipeline " ++ style_bold (code pipeline)
             ++ " to workspace " ++ style_bold workspace) ;;
       new_version <- call_upload_pipeline user_config path files ;;
       echo ("Version: " ++ str_int new_version) ;;
       let link := pipeline_url user_config workspace (code pipeline) in
       echo ("Done! You can view the pipeline in OpenHexa on "
             ++ style_link link)).

(** *** [pipelines list] *)

(** The line printed for one pipeline of the listing. *)
Definition render_pipeline (pipeline : PipelineInfo) : string :=
  let version := number (currentVersion pipeline) in
  let version :=
    if truthy version then "v" ++ str_value version else "N/A" in
  "* " ++ pi_code pipeline ++ " - " ++ pi_name pipeline
  ++ " (" ++ version ++ ")".

Definition pipelines_list : M Remote E unit :=
  user_config <- open_config ;;
  let workspace := current_workspace user_config in
  (if String.eqb workspace ""
   then echo_err "No workspace activated" ;; sys_exit 1
   else ret tt) ;;
  workspace_pipelines <- call_get_pipelines user_config ;;
  if Nat.eqb (length workspace_pipelines) 0
  then echo ("No pipelines in workspace " ++ workspace)
  else
    echo "Pipelines:" ;;
    echo_each (map render_pipeline workspace_pipelines).

(** *** A command line: the group callback, then the subcommand *)

Inductive op : Type :=
| Add (slug token : string)
| Activate (slug : string)
| Remove (slug : string).

Definition run_op (o : op) : M Remote E unit :=
  match o with
  | Add slug token => workspaces_add slug token
  | Activate slug => workspaces_activate slug
  | Remove slug => workspaces_rm slug
  end.

(** One process: [openhexa [--debug] workspaces <op>]. *)
Definition invoke (debug_flag : bool) (o : op) : M Remote E unit :=
  app debug_flag ;; run_op o.

(** The configuration file after one process, whatever its exit; the
    backend may be in any state when the process starts. *)
Definition step (c : Config) (i : bool * Remote * op) : Config :=
  match i with
  | (debug_flag, r, o) =>
      match invoke debug_flag o (mkState c r) with
      | (_, s', _) => disk s'
      end
  end.

Definition run_ops (c : Config) (l : list (bool * Remote * op)) : Config :=
  fold_left step l c.

End Cli.

(** ** The remaining handlers and the whole command line *)

(** The subcommands of the three groups. *)
Inductive workspaces_cmd : Type :=
| WsAdd (slug token : string)
| WsActivate (slug : string)
| WsList
| WsRm (slug : string).

Inductive config_cmd : Type :=
| CfgSetUrl (new_url : string).

Inductive pipelines_cmd : Type :=
| PlPush (path : string) (files : list string)
| PlList.

(** A command line: a group and the subcommand invoked, if any. *)
Inductive command : Type :=
| Workspaces (invoked_subcommand : option workspaces_cmd)
| ConfigGroup (invoked_subcommand : option config_cmd)
| Pipelines (invoked_subcommand : option pipelines_cmd).

(** Commands that only read and print. *)
Definition is_push (cmd : command) : bool :=
  match cmd with
  | Pipelines (Some (PlPush _ _)) => true
  | _ => false
  end.

Definition read_only (cmd : command) : bool :=
  match cmd with
  | Workspaces None | Workspaces (Some WsList) => true
  | ConfigGroup None => true
  | Pipelines _ => true
  | _ => false
  end.

(** The line [workspaces list] prints for a slug. *)
Definition workspace_line (current slug : string) : string :=
  if String.eqb slug current
  then style_bold ("* " ++ slug ++ " (active)")
  else "* " ++ slug.

(** The two invariants of the stored configuration. *)
Definition config_ok (c : Config) : Prop :=
  (current_workspace c = ""
   \/ In (current_workspace c) (dict_keys (workspaces c)))
  /\ NoDup (dict_keys (workspaces c)).

Section Commands.

Context {Remote E : Type}.
Variable api : Api Remote E.
Variable host : Host.

(** *** [workspaces]: the group callback *)

Definition workspaces_group (invoked_subcommand : option workspaces_cmd)
  : M Remote E unit :=
  match invoked_subcommand with
  | None => @workspaces_list Remote E
  | Some _ => ret tt
  end.

(** *** [config]: the group callback; it has no test on the subcommand *)

Definition config : M Remote E unit :=
  user_config <- open_config ;;
  echo ("Debug: " ++ (if is_debug api user_config then "True" else "False")) ;;
  echo ("Backend URL: " ++ url user_config) ;;
  echo ("Current workspace: " ++ current_workspace user_config) ;;
  echo (newline ++ "Workspaces:") ;;
  echo (String.concat newline (dict_keys (workspaces user_config))).

(** *** [pipelines]: the group callback *)

Definition pipelines (invoked_subcommand : option pipelines_cmd)
  : M Remote E unit :=
  match invoked_subcommand with
  | None => pipelines_list api
  | Some _ => ret tt
  end.

(** *** The program: click runs the callback of [app], then the callback
    of the group, then the subcommand *)

Definition main (debug_flag : bool) (cmd : command) : M Remote E unit :=
  @app Remote E debug_flag ;;
  match cmd with
  | Workspaces sub =>
      workspaces_group sub ;;
      match sub with
      | None => ret tt
      | Some (WsAdd slug token) => workspaces_add api slug token
      | Some (WsActivate slug) => workspaces_activate slug
      | Some WsList => workspaces_list
      | Some (WsRm slug) => workspaces_rm slug
      end
  | ConfigGroup sub =>
      config ;;
      match sub with
      | None => ret tt
      | Some (CfgSetUrl new_url) => config_set_url new_url
      end
  | Pipelines sub =>
      pipelines sub ;;
      match sub with
      | None => ret tt
      | Some (PlPush path files) => pipelines_push api host path files
      | Some PlList => pipelines_list api
      end
  end.

(** A handler keeps a property of the persistent state. *)
Definition preserves (I : State Remote -> Prop) {A : Type}
  (m : M Remote E A) : Prop :=
  forall s, I s -> I (state_of (m s)).

End Commands.

(** The configuration file after one process, on any machine and against
    any backend state. *)
Definition main_step {Remote E : Type} (api : Api Remote E) (c : Config)
  (i : bool * Host * Remote * command) : Config :=
  match i with
  | (debug_flag, host, r, cmd) =>
      disk (state_of (main api host debug_flag cmd (mkState c r)))
  end.

Definition run_commands {Remote E : Type} (api : Api Remote E) (c : Config)
  (l : list (bool * Host * Remote * command)) : Config :=
  fold_left (main_step api) l c.

(** ** A small backend and host to run the handlers on

    The backend state is the list of pipelines of the active workspace; the
    token [secret] is the valid one; every upload returns version 7. *)

Definition sample_api : Api (list PipelineInfo) string :=
  mkApi (list PipelineInfo) string
    (fun c => String.eqb (debug c) "True")
    (fun _ _ token _ =>
       if String.eqb token "secret" then inr tt else inl "unauthorized")
    (fun _ path => inr (mkPipeline "X"))
    (fun _ r => inr r)
    (fun _ c r => inr (find (by_code c) r))
    (fun _ c r => ((r ++ [mkPipelineInfo c c (mkVersion None)])%list, inr tt))
    (fun _ _ _ r => (r, inr 7%Z)).

Definition sample_host (answer : reply) : Host :=
  mkHost (fun _ => true) (fun _ => answer).

Definition sample_config : Config :=
  mkConfig "False" "https://app.example.org" "ws1"
    [("ws1", "secret"); ("ws2", "other")] [("pipelines.ws1", [])].

Definition sample_debug_config : Config := set_debug "True" sample_config.

Definition sample_pipeline : PipelineInfo :=
  mkPipelineInfo "X" "Pipeline X" (mkVersion (Some 3%Z)).

Definition sample_ops : list (bool * list PipelineInfo * op) :=
  [ (false, [], Add "ws1" "secret");
    (true, [], Add "ws2" "wrong");
    (false, [], Add "ws3" "wrong");
    (false, [], Activate "ws1");
    (false, [], Remove "ws1") ].

(** A backend like [sample_api] whose lookup by code finds nothing, whatever
    its listing returns. *)
Definition stale_lookup_api : Api (list PipelineInfo) string :=
  mkApi (list PipelineInfo) string
    (fun c => String.eqb (debug c) "True")
    (fun _ _ token _ =>
       if String.eqb token "secret" then inr tt else inl "unauthorized")
    (fun _ path => inr (mkPipeline "X"))
    (fun _ r => inr r)
    (fun _ _ _ => inr None)
    (fun _ c r => ((r ++ [mkPipelineInfo c c (mkVersion None)])%list, inr tt))
    (fun _ _ _ r => (r, inr 7%Z)).

(** A backend like [sample_api] that raises at one named stage. *)
Definition broken_api (stage : string) : Api (list PipelineInfo) string :=
  mkApi (list PipelineInfo) string
    (fun c => String.eqb (debug c) "True")
    (fun _ _ token _ =>
       if String.eqb token "secret" then inr tt else inl "unauthorized")
    (fun _ path =>
       if String.eqb stage "import" then inl "import failed"
       else inr (mkPipeline "X"))
    (fun _ r => if String.eqb stage "list" then inl "list failed" else inr r)
    (fun _ c r =>
       if String.eqb stage "lookup" then inl "lookup failed"
       else inr (find (by_code c) r))
    (fun _ c r =>
       if String.eqb stage "create" then (r, inl "create failed")
       else ((r ++ [mkPipelineInfo c c (mkVersion None)])%list, inr tt))
    (fun _ _ _ r =>
       if String.eqb stage "upload" then (r, inl "upload failed")
       else (r, inr 7%Z)).

Definition sample_commands
  : list (bool * Host * list PipelineInfo * command) :=
  [ (false, sample_host Yes, [], Workspaces (Some (WsAdd "ws1" "secret")));
    (true, sample_host Yes, [], Workspaces (Some (WsAdd "ws2" "wrong")));
    (false, sample_host Yes, [], ConfigGroup (Some (CfgSetUrl "https://x")));
    (false, sample_host Yes, [], Pipelines (Some (PlPush "pipeline.py" [])));
    (false, sample_host Yes, [], Workspaces None);
    (false, sample_host Yes, [], Workspaces (Some (WsRm "ws1"))) ].

(** ** The invariant of the configuration *)

(** The active workspace is either unset or a known one. *)
Definition current_ok (c : Config) : Prop :=
  current_workspace c = ""
  \/ dict_mem (current_workspace c) (workspaces c) = true.

(** ** Proof automation *)

(** Unfold the monad and run a handler as far as its inputs allow. *)
Ltac run_cmd :=
  unfold result_of, state_of, trace_of,
    bind, try_else, ret, raise, sys_exit, echo, echo_err, echo_pipelines,
    open_config, save_config, call_get_workspace, call_import_pipeline,
    call_get_pipelines, call_get_pipeline, call_create_pipeline,
    call_upload_pipeline, click_confirm;
  simpl.

(** The upload event is the only one that can be [UploadPipeline]: walk a
    membership hypothesis over a concrete log down to that entry. *)
Ltac no_upload_in H :=
  simpl in H;
  repeat (destruct H as [H|H]; [try discriminate H | ]);
  try contradiction.

(** Split a concrete log before its last two entries: the candidates are
    tried in turn until the rest of the proof goes through. *)
Ltac last_two_lines :=
  (eexists [_; _; _; _])
  + (eexists [_; _; _; _; _])
  + (eexists [_; _; _; _; _; _])
  + (eexists [_; _; _; _; _; _; _])
  + (eexists [_; _; _; _; _; _; _; _])
  + (eexists [_; _; _; _; _; _; _; _; _]).

(** Run [pipelines push] along every path: one goal per way the handler
    can end, with the decisions taken recorded as hypotheses. *)
Ltac push_cases :=
  unfold pipelines_push; run_cmd;
  match goal with
  | |- context [String.eqb (current_workspace ?c) ""] =>
      destruct (String.eqb (current_workspace c) "") eqn:?Hws; simpl
  end;
  [ | match goal with
      | |- context [path_exists ?h ?p] =>
          destruct (path_exists h p) eqn:?Hpath; simpl
      end;
      [ match goal with
        | |- context [import_pipeline ?a ?c ?p] =>
            destruct (import_pipeline a c p) as [?e|?pl] eqn:?Himp; simpl
        end;
        [ match goal with
          | |- context [is_debug ?a ?c] =>
              destruct (is_debug a c) eqn:?Hdebug; simpl
          end
        | match goal with
          | |- context [get_pipelines ?a ?c ?r] =>
              destruct (get_pipelines a c r) as [?e|?ps] eqn:?Hlist; simpl
          end;
          [ | match goal with
              | |- context [is_debug ?a ?c] =>
                  destruct (is_debug a c) eqn:?Hdebug; simpl
              end;
              (match goal with
               | |- context [get_pipeline ?a ?c ?k ?r] =>
                   destruct (get_pipeline a c k r) as [?e|[?found|]]
                     eqn:?Hget; simpl
               end;
               [ | | match goal with
                     | |- context [operator ?h ?q] =>
                         destruct (operator h q) eqn:?Hop; simpl
                     end;
                     try match goal with
                         | |- context [create_pipeline ?a ?c ?k ?r] =>
                             destruct (create_pipeline a c k r)
                               as [?r1 [?e|?u]] eqn:?Hcreate; simpl
                         end ]);
              try match goal with
                  | |- context [upload_pipeline ?a ?c ?p ?f ?r] =>
                      destruct (upload_pipeline a c p f r)
                        as [?r2 [?e|?n]] eqn:?Hupload; simpl
                  end ] ]
      | ] ].

(** Split a concrete log before its last entry. *)
Ltac before_last :=
  (eexists [_; _])
  + (eexists [_; _; _])
  + (eexists [_; _; _; _])
  + (eexists [_; _; _; _; _])
  + (eexists [_; _; _; _; _; _])
  + (eexists [_; _; _; _; _; _; _])
  + (eexists [_; _; _; _; _; _; _; _]).

(** Walk a membership hypothesis over a concrete log, keeping the entries
    that can be equal to the one looked for. *)
Ltac walk_log H :=
  simpl in H;
  repeat (destruct H as [H|H]; [try discriminate H | ]);
  try contradiction.

(** * Properties *)

(** ** Dictionaries *)

Section DictFacts.

Context {V : Type}.
Implicit Types (k : string) (v : V) (d : dict V).

Lemma dict_get_set_same k v d : dict_get k (dict_set k v d) = Some v.
Proof.
  induction d as [|[k' v'] d IH]; simpl.
  - now rewrite String.eqb_refl.
  - destruct (String.eqb k k') eqn:Hk; simpl; rewrite Hk; auto.
Qed.

Lemma dict_mem_set_same k v d : dict_mem k (dict_set k v d) = true.
Proof. unfold dict_mem. now rewrite dict_get_set_same. Qed.

Lemma dict_get_set_other k k' v d :
  k' <> k -> dict_get k' (dict_set k v d) = dict_get k' d.
Proof.
  intros Hne. induction d as [|[k0 v0] d IH]; simpl.
  - destruct (String.eqb_spec k' k); congruence.
  - destruct (String.eqb_spec k k0) as [->|Hk0]; simpl.
    + destruct (String.eqb_spec k' k0); congruence.
    + now rewrite IH.
Qed.

Lemma dict_get_del_same k d : dict_get k (dict_del k d) = None.
Proof.
  induction d as [|[k' v'] d IH]; simpl; auto.
  destruct (String.eqb k k') eqn:Hk; simpl; auto. now rewrite Hk.
Qed.

Lemma dict_mem_del_same k d : dict_mem k (dict_del k d) = false.
Proof. unfold dict_mem. now rewrite dict_get_del_same. Qed.

Lemma dict_get_del_other k k' d :
  k' <> k -> dict_get k' (dict_del k d) = dict_get k' d.
Proof.
  intros Hne. induction d as [|[k0 v0] d IH]; simpl; auto.
  destruct (String.eqb_spec k k0) as [->|Hk0]; simpl.
  - destruct (String.eqb_spec k' k0); congruence.
  - now rewrite IH.
Qed.

Lemma dict_mem_del_other k k' d :
  k' <> k -> dict_mem k' (dict_del k d) = dict_mem k' d.
Proof. intros Hne. unfold dict_mem. now rewrite dict_get_del_other. Qed.

Lemma dict_mem_keys k d : dict_mem k d = true <-> In k (dict_keys d).
Proof.
  unfold dict_mem. induction d as [|[k' v'] d IH]; simpl.
  - split; [discriminate | tauto].
  - destruct (String.eqb_spec k k') as [->|Hne].
    + split; auto.
    + rewrite IH. split; [auto | intros [Heq|Hin]; congruence].
Qed.

(** The operations keep keys unique, as in a Python dictionary. *)
Lemma dict_keys_set k v d :
  dict_keys (dict_set k v d)
  = if dict_mem k d then dict_keys d else (dict_keys d ++ [k])%list.
Proof.
  unfold dict_mem. induction d as [|[k' v'] d IH]; simpl; auto.
  destruct (String.eqb k k') eqn:Hk; simpl; auto.
  rewrite IH. now destruct (dict_get k d).
Qed.

Lemma dict_set_NoDup k v d :
  NoDup (dict_keys d) -> NoDup (dict_keys (dict_set k v d)).
Proof.
  intros Hnd. rewrite dict_keys_set.
  destruct (dict_mem k d) eqn:Hm; auto.
  assert (Hnin : ~ In k (dict_keys d)).
  { rewrite <- dict_mem_keys. congruence. }
  clear Hm. induction Hnd as [|x l Hx Hl IH]; simpl.
  - constructor; [intros [] | constructor].
  - simpl in Hnin. constructor.
    + rewrite in_app_iff. simpl. intros [Hin|[Heq|[]]]; [tauto | ].
      apply Hnin. now left.
    + apply IH. tauto.
Qed.

Lemma dict_keys_del_incl k k' d :
  In k' (dict_keys (dict_del k d)) -> In k' (dict_keys d).
Proof.
  induction d as [|[k0 v0] d IH]; simpl; auto.
  destruct (String.eqb k k0); simpl; tauto.
Qed.

Lemma dict_del_NoDup k d :
  NoDup (dict_keys d) -> NoDup (dict_keys (dict_del k d)).
Proof.
  induction d as [|[k0 v0] d IH]; simpl; auto.
  intros Hnd. inversion Hnd as [|x l Hx Hl]; subst.
  destruct (String.eqb k k0); simpl; auto.
  constructor; auto. intros Hin. apply Hx. eapply dict_keys_del_incl, Hin.
Qed.

End DictFacts.

(** ** Workspaces *)

Section WorkspaceFacts.

Context {Remote E : Type}.
Variable api : Api Remote E.

Lemma app_state (flag : bool) (s : State Remote) :
  state_of (@app Remote E flag s)
  = mkState (set_debug (str_bool flag) (disk s)) (remote s).
Proof. reflexivity. Qed.

Lemma set_debug_current_ok (v : string) (c : Config) :
  current_ok c -> current_ok (set_debug v c).
Proof. unfold current_ok. simpl. auto. Qed.

Lemma workspaces_add_current_ok (slug token : string) (s : State Remote) :
  current_ok (disk s) ->
  current_ok (disk (state_of (workspaces_add api slug token s))).
Proof.
  intros Hok. unfold workspaces_add. run_cmd.
  destruct (dict_mem slug (workspaces (disk s))); run_cmd;
    (destruct (get_workspace api (disk s) slug token (remote s)); simpl;
     [destruct (is_debug api (disk s)); simpl | ]);
    auto; right; apply dict_mem_set_same.
Qed.

Lemma workspaces_activate_current_ok (slug : string) (s : State Remote) :
  current_ok (disk s) ->
  current_ok (disk (state_of (@workspaces_activate Remote E slug s))).
Proof.
  intros Hok. unfold workspaces_activate. run_cmd.
  destruct (dict_mem slug (workspaces (disk s))) eqn:Hm; simpl; auto.
  right. exact Hm.
Qed.

Lemma workspaces_rm_current_ok (slug : string) (s : State Remote) :
  current_ok (disk s) ->
  current_ok (disk (state_of (@workspaces_rm Remote E slug s))).
Proof.
  intros Hok. unfold workspaces_rm. run_cmd.
  destruct (dict_mem slug (workspaces (disk s))) eqn:Hm; simpl; auto.
  unfold current_ok in *.
  destruct (dict_mem (pipelines_section slug) (sections (disk s))); simpl;
    (destruct (String.eqb_spec (current_workspace (disk s)) slug) as [Heq|Hne];
     simpl; [now left | ]);
    (destruct Hok as [Hok|Hok]; [now left | right];
     rewrite dict_mem_del_other; auto).
Qed.

Lemma invoke_state (flag : bool) (o : op) (s : State Remote) :
  state_of (invoke api flag o s)
  = state_of (run_op api o (mkState (set_debug (str_bool flag) (disk s))
                              (remote s))).
Proof.
  unfold invoke, bind, app. run_cmd.
  destruct (run_op api o _) as [[res s'] tr]. reflexivity.
Qed.

Lemma step_current_ok (c : Config) (i : bool * Remote * op) :
  current_ok c -> current_ok (step api c i).
Proof.
  intros Hok. destruct i as [[flag r] o]. unfold step.
  pose proof (invoke_state flag o (mkState c r)) as Hs.
  destruct (invoke api flag o (mkState c r)) as [[res s'] tr].
  unfold state_of in Hs. simpl in Hs. rewrite Hs.
  apply (set_debug_current_ok (str_bool flag)) in Hok.
  destruct o as [slug token|slug|slug]; simpl.
  - now apply (workspaces_add_current_ok slug token (mkState _ r)).
  - now apply (workspaces_activate_current_ok slug (mkState _ r)).
  - now apply (workspaces_rm_current_ok slug (mkState _ r)).
Qed.

Lemma run_ops_current_ok (l : list (bool * Remote * op)) (c : Config) :
  current_ok c -> current_ok (run_ops api c l).
Proof.
  unfold run_ops. revert c.
  induction l as [|i l IH]; intros c Hok; simpl; auto.
  apply IH, step_current_ok, Hok.
Qed.

End WorkspaceFacts.

(** C1. Starting from a configuration with no workspace and no active
    workspace, after any finite sequence of [workspaces add], [workspaces
    activate] and [workspaces rm] command lines (each with any debug flag
    and against any backend state) the stored [current_workspace] is the
    empty string or a key of the stored [workspaces] mapping. *)
Theorem current_workspace_invariant :
  forall (Remote E : Type) (api : Api Remote E) (c : Config)
         (l : list (bool * Remote * op)),
    workspaces c = [] ->
    current_workspace c = "" ->
    current_workspace (run_ops api c l) = ""
    \/ In (current_workspace (run_ops api c l))
         (dict_keys (workspaces (run_ops api c l))).
Proof.
  intros Remote E api c l _ Hcur.
  destruct (run_ops_current_ok api l c) as [H|H].
  - now left.
  - now left.
  - right. now apply dict_mem_keys.
Qed.

Lemma current_workspace_invariant_witness :
  workspaces (default_config "https://app.example.org") = []
  /\ current_workspace (default_config "https://app.example.org") = ""
  /\ (current_workspace
        (run_ops sample_api (default_config "https://app.example.org")
           sample_ops) = ""
      \/ In (current_workspace
               (run_ops sample_api (default_config "https://app.example.org")
                  sample_ops))
           (dict_keys
              (workspaces
                 (run_ops sample_api
                    (default_config "https://app.example.org") sample_ops)))).
Proof.
  split; [reflexivity | split; [reflexivity | ]].
  apply (current_workspace_invariant _ _ sample_api
           (default_config "https://app.example.org") sample_ops);
    reflexivity.
Defined.

(** C2. For every configuration and every slug that is a key of its
    workspaces mapping, [workspaces rm slug] returns normally and saves a
    configuration in which the slug is no longer a key of [workspaces], no
    section named [pipelines.<slug>] exists, and [current_workspace] is
    the empty string if it was the slug before. *)
Theorem workspaces_rm_cleanup :
  forall (Remote E : Type) (c : Config) (r : Remote) (slug : string),
    In slug (dict_keys (workspaces c)) ->
    let out := @workspaces_rm Remote E slug (mkState c r) in
    let c' := disk (state_of out) in
    result_of out = Ok tt
    /\ ~ In slug (dict_keys (workspaces c'))
    /\ ~ In (pipelines_section slug) (dict_keys (sections c'))
    /\ (current_workspace c = slug -> current_workspace c' = "")
    /\ In (SaveConfig c') (trace_of out).
Proof.
  intros Remote E c r slug Hin. apply dict_mem_keys in Hin.
  unfold workspaces_rm. run_cmd. rewrite Hin. simpl.
  assert (Hsec :
    dict_mem (pipelines_section slug)
      (sections
         (if dict_mem (pipelines_section slug) (sections c)
          then set_sections (dict_del (pipelines_section slug) (sections c))
                 (set_workspaces (dict_del slug (workspaces c)) c)
          else set_workspaces (dict_del slug (workspaces c)) c)) = false).
  { destruct (dict_mem (pipelines_section slug) (sections c)) eqn:Hs; simpl;
      [apply dict_mem_del_same | exact Hs]. }
  assert (Hws :
    dict_mem slug
      (workspaces
         (if dict_mem (pipelines_section slug) (sections c)
          then set_sections (dict_del (pipelines_section slug) (sections c))
                 (set_workspaces (dict_del slug (workspaces c)) c)
          else set_workspaces (dict_del slug (workspaces c)) c)) = false).
  { destruct (dict_mem (pipelines_section slug) (sections c)); simpl;
      apply dict_mem_del_same. }
  assert (Hcur :
    current_workspace
      (if dict_mem (pipelines_section slug) (sections c)
       then set_sections (dict_del (pipelines_section slug) (sections c))
              (set_workspaces (dict_del slug (workspaces c)) c)
       else set_workspaces (dict_del slug (workspaces c)) c)
    = current_workspace c).
  { destruct (dict_mem (pipelines_section slug) (sections c)); reflexivity. }
  rewrite Hcur.
  destruct (String.eqb_spec (current_workspace c) slug) as [Heq|Hne]; simpl;
    (split; [reflexivity | ]);
    (split; [rewrite <- dict_mem_keys; congruence | ]);
    (split; [rewrite <- dict_mem_keys; congruence | ]);
    (split; [congruence | ]); right; now left.
Qed.

Lemma workspaces_rm_cleanup_witness :
  In "ws1" (dict_keys (workspaces sample_config))
  /\ result_of (@workspaces_rm (list PipelineInfo) string "ws1"
                  (mkState sample_config []))
     = Ok tt.
Proof.
  split; [simpl; now left | ].
  apply (workspaces_rm_cleanup (list PipelineInfo) string sample_config []
           "ws1").
  simpl. now left.
Defined.

(** C9. For every slug that is not a key of the workspaces mapping,
    [workspaces activate slug] and [workspaces rm slug] each return
    normally (exit status 0) with the persisted state untouched and nothing
    saved; [activate] prints that the workspace does not exist followed by
    the known slugs, [rm] prints that the workspace does not exist. *)
Theorem unknown_slug_changes_nothing :
  forall (Remote E : Type) (c : Config) (r : Remote) (slug : string),
    ~ In slug (dict_keys (workspaces c)) ->
    let act := @workspaces_activate Remote E slug (mkState c r) in
    let rm := @workspaces_rm Remote E slug (mkState c r) in
    act = (Ok tt, mkState c r,
           [Echo false ("Workspace " ++ slug
                        ++ " does not exist. Available workspaces:");
            Echo false (String.concat ", " (dict_keys (workspaces c)))])
    /\ rm = (Ok tt, mkState c r,
             [Echo false ("Workspace " ++ slug ++ " does not exist")])
    /\ exit_status (result_of act) = 0%Z
    /\ exit_status (result_of rm) = 0%Z
    /\ count is_save (trace_of act) = 0
    /\ count is_save (trace_of rm) = 0.
Proof.
  intros Remote E c r slug Hnin.
  assert (Hm : dict_mem slug (workspaces c) = false).
  { destruct (dict_mem slug (workspaces c)) eqn:Hm; auto.
    exfalso. apply Hnin. now apply dict_mem_keys. }
  unfold workspaces_activate, workspaces_rm. run_cmd. rewrite Hm. simpl.
  repeat split; reflexivity.
Qed.

Lemma unknown_slug_changes_nothing_witness :
  ~ In "nope" (dict_keys (workspaces sample_config))
  /\ state_of (@workspaces_activate (list PipelineInfo) string "nope"
                 (mkState sample_config []))
     = mkState sample_config []
  /\ state_of (@workspaces_rm (list PipelineInfo) string "nope"
                 (mkState sample_config []))
     = mkState sample_config [].
Proof.
  assert (Hnin : ~ In "nope" (dict_keys (workspaces sample_config))).
  { simpl. intros [H|[H|[]]]; discriminate H. }
  split; [exact Hnin | ].
  destruct (unknown_slug_changes_nothing (list PipelineInfo) string
              sample_config [] "nope" Hnin) as (Ha & Hr & _).
  split; [now rewrite Ha | now rewrite Hr].
Defined.

(** C8. In [workspaces add slug token], when the remote validation raises
    [e]: with debug off the handler prints the warning on the error stream,
    returns normally and saves a configuration that maps the slug to the
    token and has the slug as [current_workspace]; with debug on the
    handler raises [e].  Whenever the handler returns normally, the saved
    configuration maps the slug to the token and has the slug as
    [current_workspace]. *)
Theorem workspaces_add_validation_failure :
  forall (Remote E : Type) (api : Api Remote E) (c : Config) (r : Remote)
         (slug token : string),
    let out := workspaces_add api slug token (mkState c r) in
    let c' := disk (state_of out) in
    (forall e : E,
        get_workspace api c slug token r = inl e ->
        (is_debug api c = false ->
         result_of out = Ok tt
         /\ In (Echo true "Error while getting workspace. Check the slug of the workspace and the access token.")
              (trace_of out)
         /\ dict_get slug (workspaces c') = Some token
         /\ current_workspace c' = slug
         /\ In (SaveConfig c') (trace_of out))
        /\ (is_debug api c = true -> result_of out = Raise (Error e)))
    /\ (result_of out = Ok tt ->
        dict_get slug (workspaces c') = Some token
        /\ current_workspace c' = slug
        /\ In (SaveConfig c') (trace_of out)).
Proof.
  intros Remote E api c r slug token.
  unfold workspaces_add. run_cmd.
  destruct (dict_mem slug (workspaces c)); run_cmd;
    (destruct (get_workspace api c slug token r) as [e0|u]; simpl;
     [destruct (is_debug api c); simpl | ]);
    (split;
     [ intros e He; inversion He; subst; split; intros Hd;
       try discriminate Hd; try reflexivity;
       repeat split; auto using dict_get_set_same; simpl; tauto
     | intros Hok; try discriminate Hok;
       repeat split; auto using dict_get_set_same; simpl; tauto ]).
Qed.

Lemma workspaces_add_validation_failure_witness :
  get_workspace sample_api sample_config "ws3" "wrong" [] = inl "unauthorized"
  /\ is_debug sample_api sample_config = false
  /\ result_of (workspaces_add sample_api "ws3" "wrong"
                  (mkState sample_config []))
     = Ok tt
  /\ current_workspace
       (disk (state_of (workspaces_add sample_api "ws3" "wrong"
                          (mkState sample_config []))))
     = "ws3".
Proof.
  split; [reflexivity | split; [reflexivity | ]].
  destruct (workspaces_add_validation_failure _ _ sample_api sample_config []
              "ws3" "wrong") as [Hfail _].
  destruct (Hfail "unauthorized" eq_refl) as [Hoff _].
  destruct (Hoff eq_refl) as (Hres & _ & _ & Hcur & _).
  split; [exact Hres | exact Hcur].
Defined.

(** C10. In [workspaces add slug token] with debug on, when the remote
    validation raises [e], the handler raises [e] with the persisted state
    exactly as it was (no entry added or changed, [current_workspace]
    untouched) and without any save. *)
Theorem workspaces_add_debug_failure_keeps_state :
  forall (Remote E : Type) (api : Api Remote E) (c : Config) (r : Remote)
         (slug token : string) (e : E),
    is_debug api c = true ->
    get_workspace api c slug token r = inl e ->
    let out := workspaces_add api slug token (mkState c r) in
    result_of out = Raise (Error e)
    /\ state_of out = mkState c r
    /\ count is_save (trace_of out) = 0.
Proof.
  intros Remote E api c r slug token e Hd He.
  unfold workspaces_add. run_cmd.
  destruct (dict_mem slug (workspaces c)); run_cmd;
    rewrite He; simpl; rewrite Hd; simpl; repeat split; reflexivity.
Qed.

Lemma workspaces_add_debug_failure_keeps_state_witness :
  is_debug sample_api sample_debug_config = true
  /\ get_workspace sample_api sample_debug_config "ws3" "wrong" []
     = inl "unauthorized"
  /\ state_of (workspaces_add sample_api "ws3" "wrong"
                 (mkState sample_debug_config []))
     = mkState sample_debug_config [].
Proof.
  split; [reflexivity | split; [reflexivity | ]].
  apply (workspaces_add_debug_failure_keeps_state _ _ sample_api
           sample_debug_config [] "ws3" "wrong" "unauthorized");
    reflexivity.
Defined.

(** ** Pipelines *)

(** C5. With an empty [current_workspace], [pipelines push] and
    [pipelines list] each print [No workspace activated] on the error
    stream and leave through [sys.exit(1)]: the exit status is non-zero,
    the state is untouched and no backend call is made. *)
Theorem no_active_workspace_is_fatal :
  forall (Remote E : Type) (api : Api Remote E) (host : Host) (c : Config)
         (r : Remote) (path : string) (files : list string),
    current_workspace c = "" ->
    let push := pipelines_push api host path files (mkState c r) in
    let lst := pipelines_list api (mkState c r) in
    push = (Exit 1, mkState c r, [Echo true "No workspace activated"])
    /\ lst = (Exit 1, mkState c r, [Echo true "No workspace activated"])
    /\ exit_status (result_of push) <> 0%Z
    /\ exit_status (result_of lst) <> 0%Z
    /\ count is_remote_call (trace_of push) = 0
    /\ count is_remote_call (trace_of lst) = 0.
Proof.
  intros Remote E api host c r path files Hcur.
  unfold pipelines_push, pipelines_list. run_cmd. rewrite Hcur. simpl.
  repeat split; try reflexivity; discriminate.
Qed.

Lemma no_active_workspace_is_fatal_witness :
  current_workspace (default_config "https://app.example.org") = ""
  /\ pipelines_push sample_api (sample_host Yes) "pipeline.py" []
       (mkState (default_config "https://app.example.org") [])
     = (Exit 1, mkState (default_config "https://app.example.org") [],
        [Echo true "No workspace activated"])
  /\ pipelines_list sample_api
       (mkState (default_config "https://app.example.org") [])
     = (Exit 1, mkState (default_config "https://app.example.org") [],
        [Echo true "No workspace activated"]).
Proof.
  split; [reflexivity | ].
  destruct (no_active_workspace_is_fatal _ _ sample_api (sample_host Yes)
              (default_config "https://app.example.org") [] "pipeline.py" []
              eq_refl) as (Hp & Hl & _).
  split; [exact Hp | exact Hl].
Defined.

Lemma eqb_empty_false (w : string) : w <> "" -> String.eqb w "" = false.
Proof. intros Hne. now destruct (String.eqb_spec w ""). Qed.

Lemma find_by_code_some (c : string) (ps : list PipelineInfo) :
  In c (map pi_code ps) -> exists i, find (by_code c) ps = Some i.
Proof.
  induction ps as [|i ps IH]; simpl; [tauto | ].
  intros [Heq|Hin]; unfold by_code at 1.
  - rewrite Heq, String.eqb_refl. now exists i.
  - destruct (String.eqb (pi_code i) c); [now exists i | auto].
Qed.

(** C3. In a push that gets as far as the remote lookup and finds no
    pipeline with the resolved code: if the operator accepts the prompt
    (answers yes, or takes the default), the log has the confirmation
    immediately followed by the single create call, with no create, upload
    or other confirmation before it and no second create after it, so any
    upload comes after the create; if the operator declines (or input
    ends), the handler raises [click.Abort], the exit status is non-zero,
    no create and no upload call is made and the persisted configuration
    and the backend state are as before. *)
Theorem push_create_path :
  forall (Remote E : Type) (api : Api Remote E) (host : Host) (c : Config)
         (r : Remote) (path : string) (files : list string) (p : Pipeline)
         (ps : list PipelineInfo),
    current_workspace c <> "" ->
    path_exists host path = true ->
    import_pipeline api c path = inr p ->
    get_pipelines api c r = inr ps ->
    get_pipeline api c (code p) r = inr None ->
    let q := create_prompt (current_workspace c) (code p) in
    let out := pipelines_push api host path files (mkState c r) in
    match operator host q with
    | Yes | Enter =>
        exists pre post : list event,
          trace_of out
          = (pre ++ Confirm q (operator host q) :: CreatePipeline (code p)
                 :: post)%list
          /\ count is_confirm pre = 0
          /\ count is_create pre = 0
          /\ count is_upload pre = 0
          /\ count is_create post = 0
    | No | Eof =>
        result_of out = Raise ClickAbort
        /\ exit_status (result_of out) <> 0%Z
        /\ In (Confirm q (operator host q)) (trace_of out)
        /\ count is_create (trace_of out) = 0
        /\ count is_upload (trace_of out) = 0
        /\ state_of out = mkState c r
    end.
Proof.
  intros Remote E api host c r path files p ps Hws Hpath Himp Hlist Hget q out.
  subst out. unfold pipelines_push. run_cmd.
  rewrite (eqb_empty_false _ Hws), Hpath. simpl.
  rewrite Himp. simpl. rewrite Hlist. simpl.
  fold q.
  destruct (is_debug api c); simpl; rewrite Hget; simpl; fold q;
    destruct (operator host q) eqn:Hop; simpl.
  all: try (repeat split; try reflexivity; try discriminate; simpl; tauto).
  all: destruct (create_pipeline api c (code p) r) as [r1 [e1|u1]]; simpl.
  all: try destruct (upload_pipeline api c path files r1) as [r2 [e2|n2]];
    simpl.
  all: try (eexists [_; _; _; _]; eexists; split; [reflexivity | ];
            repeat split; reflexivity).
  all: try (eexists [_; _; _; _; _]; eexists; split; [reflexivity | ];
            repeat split; reflexivity).
Qed.

Lemma push_create_path_witness :
  current_workspace sample_config <> ""
  /\ path_exists (sample_host No) "pipeline.py" = true
  /\ import_pipeline sample_api sample_config "pipeline.py"
     = inr (mkPipeline "X")
  /\ get_pipelines sample_api sample_config [] = inr []
  /\ get_pipeline sample_api sample_config "X" [] = inr None
  /\ count is_create
       (trace_of (pipelines_push sample_api (sample_host No) "pipeline.py" []
                    (mkState sample_config [])))
     = 0.
Proof.
  assert (Hws : current_workspace sample_config <> "").
  { simpl. discriminate. }
  split; [exact Hws | ].
  repeat (split; [reflexivity | ]).
  pose proof (push_create_path _ _ sample_api (sample_host No) sample_config
                [] "pipeline.py" [] (mkPipeline "X") []
                Hws eq_refl eq_refl eq_refl eq_refl) as H.
  simpl in H. destruct H as (_ & _ & _ & Hc & _). exact Hc.
Defined.

(** In a push that gets as far as the remote lookup, when the pipeline
    list of the active workspace contains the resolved code and the
    backend's lookup by code agrees with that list, the handler makes no
    create call and shows no confirmation prompt; its backend calls are
    the listing, the lookup and the upload, in this order; and the only
    change of the backend state is the one made by the upload. *)
Lemma push_update_path_listed :
  forall (Remote E : Type) (api : Api Remote E) (host : Host) (c : Config)
         (r : Remote) (path : string) (files : list string) (p : Pipeline)
         (ps : list PipelineInfo),
    current_workspace c <> "" ->
    path_exists host path = true ->
    import_pipeline api c path = inr p ->
    get_pipelines api c r = inr ps ->
    In (code p) (map pi_code ps) ->
    get_pipeline api c (code p) r = inr (find (by_code (code p)) ps) ->
    let out := pipelines_push api host path files (mkState c r) in
    count is_confirm (trace_of out) = 0
    /\ count is_create (trace_of out) = 0
    /\ (exists v : option Z,
           filter is_remote_call (trace_of out)
           = [GetPipelines; GetPipeline (code p);
              UploadPipeline path files v])
    /\ state_of out = mkState c (fst (upload_pipeline api c path files r)).
Proof.
  intros Remote E api host c r path files p ps Hws Hpath Himp Hlist Hin Hget
    out.
  destruct (find_by_code_some _ _ Hin) as [i Hfind]. rewrite Hfind in Hget.
  subst out. unfold pipelines_push. run_cmd.
  rewrite (eqb_empty_false _ Hws), Hpath. simpl.
  rewrite Himp. simpl. rewrite Hlist. simpl.
  destruct (is_debug api c); simpl; rewrite Hget; simpl;
    destruct (upload_pipeline api c path files r) as [r2 [e2|n2]]; simpl;
    (repeat split; try reflexivity; eexists; reflexivity).
Qed.

(** C4, as the handler decides it.  In a push that gets as far as the
    remote lookup, when the lookup of the resolved code ([get_pipeline],
    the call the handler branches on) returns an existing pipeline, the
    handler makes no create call and shows no confirmation prompt; its
    backend calls are the listing, the lookup and the upload, in this
    order; and the only change of the backend state is the one made by
    the upload.  What the fetched list contains plays no part. *)
Theorem push_update_path :
  forall (Remote E : Type) (api : Api Remote E) (host : Host) (c : Config)
         (r : Remote) (path : string) (files : list string) (p : Pipeline)
         (ps : list PipelineInfo) (i : PipelineInfo),
    current_workspace c <> "" ->
    path_exists host path = true ->
    import_pipeline api c path = inr p ->
    get_pipelines api c r = inr ps ->
    get_pipeline api c (code p) r = inr (Some i) ->
    let out := pipelines_push api host path files (mkState c r) in
    count is_confirm (trace_of out) = 0
    /\ count is_create (trace_of out) = 0
    /\ (exists v : option Z,
           filter is_remote_call (trace_of out)
           = [GetPipelines; GetPipeline (code p);
              UploadPipeline path files v])
    /\ state_of out = mkState c (fst (upload_pipeline api c path files r)).
Proof.
  intros Remote E api host c r path files p ps i Hws Hpath Himp Hlist Hget
    out.
  subst out. unfold pipelines_push. run_cmd.
  rewrite (eqb_empty_false _ Hws), Hpath. simpl.
  rewrite Himp. simpl. rewrite Hlist. simpl.
  destruct (is_debug api c); simpl; rewrite Hget; simpl;
    destruct (upload_pipeline api c path files r) as [r2 [e2|n2]]; simpl;
    (repeat split; try reflexivity; eexists; reflexivity).
Qed.

Lemma push_update_path_witness :
  current_workspace sample_config <> ""
  /\ path_exists (sample_host No) "pipeline.py" = true
  /\ import_pipeline sample_api sample_config "pipeline.py"
     = inr (mkPipeline "X")
  /\ get_pipelines sample_api sample_config [sample_pipeline]
     = inr [sample_pipeline]
  /\ get_pipeline sample_api sample_config "X" [sample_pipeline]
     = inr (Some sample_pipeline)
  /\ count is_confirm
       (trace_of (pipelines_push sample_api (sample_host No) "pipeline.py" []
                    (mkState sample_config [sample_pipeline])))
     = 0
  /\ count is_create
       (trace_of (pipelines_push sample_api (sample_host No) "pipeline.py" []
                    (mkState sample_config [sample_pipeline])))
     = 0.
Proof.
  assert (Hws : current_workspace sample_config <> "").
  { simpl. discriminate. }
  split; [exact Hws | ].
  do 4 (split; [reflexivity | ]).
  destruct (push_update_path _ _ sample_api (sample_host No) sample_config
              [sample_pipeline] "pipeline.py" [] (mkPipeline "X")
              [sample_pipeline] sample_pipeline Hws eq_refl eq_refl eq_refl
              eq_refl) as (Hconfirm & Hcreate & _).
  split; [exact Hconfirm | exact Hcreate].
Defined.

(** C4 as worded does not hold: with a backend whose listing contains the
    resolved code [X] while its lookup by code finds nothing, every premise
    of the claim is met, and yet the handler prompts, creates the pipeline
    on acceptance and only then uploads. *)
Lemma push_update_path_counterexample :
  current_workspace sample_config <> ""
  /\ path_exists (sample_host Yes) "pipeline.py" = true
  /\ import_pipeline stale_lookup_api sample_config "pipeline.py"
     = inr (mkPipeline "X")
  /\ get_pipelines stale_lookup_api sample_config [sample_pipeline]
     = inr [sample_pipeline]
  /\ In "X" (map pi_code [sample_pipeline])
  /\ count is_confirm
       (trace_of (pipelines_push stale_lookup_api (sample_host Yes)
                    "pipeline.py" []
                    (mkState sample_config [sample_pipeline])))
     = 1
  /\ count is_create
       (trace_of (pipelines_push stale_lookup_api (sample_host Yes)
                    "pipeline.py" []
                    (mkState sample_config [sample_pipeline])))
     = 1
  /\ filter is_remote_call
       (trace_of (pipelines_push stale_lookup_api (sample_host Yes)
                    "pipeline.py" []
                    (mkState sample_config [sample_pipeline])))
     = [GetPipelines; GetPipeline "X"; CreatePipeline "X";
        UploadPipeline "pipeline.py" [] (Some 7%Z)]
  /\ ~ (count is_confirm
          (trace_of (pipelines_push stale_lookup_api (sample_host Yes)
                       "pipeline.py" []
                       (mkState sample_config [sample_pipeline])))
        = 0
        /\ count is_create
             (trace_of (pipelines_push stale_lookup_api (sample_host Yes)
                          "pipeline.py" []
                          (mkState sample_config [sample_pipeline])))
           = 0).
Proof.
  split; [simpl; discriminate | ].
  do 3 (split; [reflexivity | ]).
  split; [simpl; now left | ].
  do 3 (split; [reflexivity | ]).
  intros [H _]. discriminate H.
Qed.

(** C6. In every push whose upload call returns version [N], the handler
    returns normally and its last two lines of output are [Version: N] and
    the closing line carrying the link
    [{url}/workspaces/{slug}/pipelines/{code}], built from the configured
    backend URL, the active workspace and the code of the imported
    pipeline. *)
Theorem push_reports_version_and_link :
  forall (Remote E : Type) (api : Api Remote E) (host : Host)
         (s : State Remote) (path : string) (files : list string) (N : Z),
    let out := pipelines_push api host path files s in
    In (UploadPipeline path files (Some N)) (trace_of out) ->
    exists (p : Pipeline) (pre : list event) (link : string),
      import_pipeline api (disk s) path = inr p
      /\ link = url (disk s) ++ "/workspaces/" ++ current_workspace (disk s)
                ++ "/pipelines/" ++ code p
      /\ result_of out = Ok tt
      /\ trace_of out
         = (pre ++ [Echo false ("Version: " ++ str_int N);
                    Echo false
                      ("Done! You can view the pipeline in OpenHexa on "
                       ++ style_link link)])%list
      /\ contains ("Done! You can view the pipeline in OpenHexa on "
                   ++ style_link link) link.
Proof.
  intros Remote E api host s path files N out.
  assert (Hcontains : forall link,
    contains ("Done! You can view the pipeline in OpenHexa on "
              ++ style_link link) link).
  { intros link.
    exists ("Done! You can view the pipeline in OpenHexa on "
            ++ esc ++ "[94m" ++ esc ++ "[4m"), (esc ++ "[0m").
    reflexivity. }
  subst out. unfold pipelines_push. run_cmd.
  destruct (String.eqb (current_workspace (disk s)) ""); simpl;
    [intros [H|[]]; discriminate H | ].
  destruct (path_exists host path); simpl;
    [ | intros [H|[]]; discriminate H ].
  destruct (import_pipeline api (disk s) path) as [e|p]; simpl.
  { destruct (is_debug api (disk s)); simpl;
      intros [H|[H|[]]]; discriminate H. }
  destruct (get_pipelines api (disk s) (remote s)) as [e|ps]; simpl.
  { intros [H|[H|[]]]; discriminate H. }
  destruct (is_debug api (disk s)); simpl;
    (destruct (get_pipeline api (disk s) (code p) (remote s)) as [e|[i|]];
     simpl;
     [ | | destruct (operator host _); simpl;
           try destruct (create_pipeline api (disk s) (code p) (remote s))
             as [r1 [e1|u1]]; simpl ]);
    try destruct (upload_pipeline api (disk s) path files _)
      as [r2 [e2|n2]]; simpl.
  all: intros Hin; no_upload_in Hin.
  all: injection Hin as HN; subst n2.
  all: solve [ exists p; last_two_lines; eexists;
               (split; [reflexivity | ]); (split; [reflexivity | ]);
               (split; [reflexivity | ]);
               (split; [reflexivity | apply Hcontains]) ].
Qed.

Lemma push_reports_version_and_link_witness :
  In (UploadPipeline "pipeline.py" [] (Some 7%Z))
    (trace_of (pipelines_push sample_api (sample_host No) "pipeline.py" []
                 (mkState sample_config [sample_pipeline])))
  /\ In (Echo false "Version: 7")
       (trace_of (pipelines_push sample_api (sample_host No) "pipeline.py" []
                    (mkState sample_config [sample_pipeline])))
  /\ In (Echo false
           ("Done! You can view the pipeline in OpenHexa on "
            ++ style_link "https://app.example.org/workspaces/ws1/pipelines/X"))
       (trace_of (pipelines_push sample_api (sample_host No) "pipeline.py" []
                    (mkState sample_config [sample_pipeline]))).
Proof.
  assert (Hup :
    In (UploadPipeline "pipeline.py" [] (Some 7%Z))
      (trace_of (pipelines_push sample_api (sample_host No) "pipeline.py" []
                   (mkState sample_config [sample_pipeline])))).
  { simpl. tauto. }
  split; [exact Hup | ].
  destruct (push_reports_version_and_link _ _ sample_api (sample_host No)
              (mkState sample_config [sample_pipeline]) "pipeline.py" []
              7%Z Hup) as (p & pre & link & Himp & Hlink & _ & Htr & _).
  injection Himp as Hp. subst p. simpl in Hlink. subst link.
  rewrite Htr. split; apply in_or_app; right; simpl; tauto.
Defined.

(** ** The listing *)

Lemma render_pipeline_numbered (c n : string) (v : Z) :
  v <> 0%Z ->
  render_pipeline (mkPipelineInfo c n (mkVersion (Some v)))
  = "* " ++ c ++ " - " ++ n ++ " (v" ++ str_int v ++ ")".
Proof.
  intros Hv. unfold render_pipeline. simpl.
  destruct (Z.eqb_spec v 0); [contradiction | reflexivity].
Qed.

Lemma render_pipeline_absent (c n : string) :
  render_pipeline (mkPipelineInfo c n (mkVersion None))
  = "* " ++ c ++ " - " ++ n ++ " (N/A)".
Proof. reflexivity. Qed.

Example render_alpha :
  render_pipeline (mkPipelineInfo "A" "Alpha" (mkVersion None))
  = "* A - Alpha (N/A)".
Proof. reflexivity. Qed.

Example render_beta :
  render_pipeline (mkPipelineInfo "B" "Beta" (mkVersion (Some 3%Z)))
  = "* B - Beta (v3)".
Proof. reflexivity. Qed.

Lemma echo_each_run {Remote E : Type} (lines : list string)
  (s : State Remote) :
  @echo_each Remote E lines s = (Ok tt, s, map (Echo false) lines).
Proof.
  induction lines as [|l lines IH]; simpl; [reflexivity | ].
  unfold bind, echo. simpl. now rewrite IH.
Qed.

(** With an active workspace and a non-empty listing, [pipelines list]
    prints the header and one rendered line per pipeline, in order. *)
Lemma pipelines_list_lines {Remote E : Type} (api : Api Remote E)
  (c : Config) (r : Remote) (i : PipelineInfo) (ps : list PipelineInfo) :
  current_workspace c <> "" ->
  get_pipelines api c r = inr (i :: ps) ->
  pipelines_list api (mkState c r)
  = (Ok tt, mkState c r,
     GetPipelines :: Echo false "Pipelines:"
       :: map (Echo false) (map render_pipeline (i :: ps))).
Proof.
  intros Hws Hlist. unfold pipelines_list. run_cmd.
  rewrite (eqb_empty_false _ Hws). simpl. rewrite Hlist. simpl.
  unfold bind, echo. simpl. now rewrite echo_each_run.
Qed.

(** C7. A pipeline whose [currentVersion.number] is present with value 0
    is printed by [pipelines list] with [(N/A)], not [(v0)]: the handler
    tests the number for truth, and 0 is false. *)
Theorem pipelines_list_zero_version :
  render_pipeline (mkPipelineInfo "A" "Alpha" (mkVersion (Some 0%Z)))
  = "* A - Alpha (N/A)"
  /\ pipelines_list sample_api
       (mkState sample_config
          [mkPipelineInfo "A" "Alpha" (mkVersion (Some 0%Z))])
     = (Ok tt,
        mkState sample_config
          [mkPipelineInfo "A" "Alpha" (mkVersion (Some 0%Z))],
        [GetPipelines; Echo false "Pipelines:";
         Echo false "* A - Alpha (N/A)"]).
Proof. split; reflexivity. Qed.

(** * Further properties of the handlers *)

(** ** The persistent state after each handler *)

Section HandlerStates.

Context {Remote E : Type}.
Variable api : Api Remote E.
Variable host : Host.

Lemma state_of_bind {A B : Type} (m : M Remote E A) (f : A -> M Remote E B)
  (s : State Remote) :
  state_of (bind m f s)
  = match m s with
    | (Ok a, s1, _) => state_of (f a s1)
    | (Exit _, s1, _) => s1
    | (Raise _, s1, _) => s1
    end.
Proof.
  unfold bind, state_of.
  destruct (m s) as [[[a|n|e] s1] t1]; simpl; auto.
  now destruct (f a s1) as [[r s2] t2].
Qed.

Lemma preserves_bind (I : State Remote -> Prop) {A B : Type}
  (m : M Remote E A) (f : A -> M Remote E B) :
  preserves I m -> (forall a, preserves I (f a)) -> preserves I (bind m f).
Proof.
  intros Hm Hf s Hs. rewrite state_of_bind.
  specialize (Hm s Hs). unfold state_of in Hm.
  destruct (m s) as [[[a|n|e] s1] t1]; simpl in Hm; auto.
  now apply Hf.
Qed.

Lemma preserves_ret (I : State Remote -> Prop) {A : Type} (a : A) :
  preserves I (@ret Remote E A a).
Proof. intros s Hs. exact Hs. Qed.

Lemma preserves_same (I : State Remote -> Prop) {A : Type}
  (m : M Remote E A) :
  (forall s, state_of (m s) = s) -> preserves I m.
Proof. intros Hm s Hs. now rewrite Hm. Qed.

Lemma state_eta (s : State Remote) : mkState (disk s) (remote s) = s.
Proof. now destruct s. Qed.

Lemma workspaces_list_state (s : State Remote) :
  state_of (@workspaces_list Remote E s) = s.
Proof.
  unfold workspaces_list. run_cmd. rewrite echo_each_run. simpl.
  apply state_eta.
Qed.

Lemma config_state (s : State Remote) : state_of (config api s) = s.
Proof. reflexivity. Qed.

Lemma config_set_url_state (new_url : string) (s : State Remote) :
  state_of (@config_set_url Remote E new_url s)
  = mkState (set_url new_url (disk s)) (remote s).
Proof. reflexivity. Qed.

Lemma pipelines_list_state (s : State Remote) :
  state_of (pipelines_list api s) = s.
Proof.
  unfold pipelines_list. run_cmd.
  destruct (String.eqb (current_workspace (disk s)) ""); simpl; auto.
  destruct (get_pipelines api (disk s) (remote s)) as [e|ps]; simpl; auto.
  destruct ps as [|i ps]; simpl; auto.
  unfold bind, echo. simpl. now rewrite echo_each_run.
Qed.

Lemma workspaces_add_state (slug token : string) (s : State Remote) :
  state_of (workspaces_add api slug token s) = s
  \/ state_of (workspaces_add api slug token s)
     = mkState
         (set_current_workspace slug
            (set_workspaces (dict_set slug token (workspaces (disk s)))
               (disk s)))
         (remote s).
Proof.
  unfold workspaces_add. run_cmd.
  destruct (dict_mem slug (workspaces (disk s))); run_cmd;
    (destruct (get_workspace api (disk s) slug token (remote s)); simpl;
     [destruct (is_debug api (disk s)); simpl | ]); auto.
Qed.

Lemma workspaces_activate_state (slug : string) (s : State Remote) :
  state_of (@workspaces_activate Remote E slug s) = s
  \/ (dict_mem slug (workspaces (disk s)) = true
      /\ state_of (@workspaces_activate Remote E slug s)
         = mkState (set_current_workspace slug (disk s)) (remote s)).
Proof.
  unfold workspaces_activate. run_cmd.
  destruct (dict_mem slug (workspaces (disk s))); simpl; auto.
Qed.

Lemma dict_del_absent {V : Type} (k : string) (d : dict V) :
  dict_mem k d = false -> dict_del k d = d.
Proof.
  unfold dict_mem. induction d as [|[k' v'] d IH]; simpl; auto.
  destruct (String.eqb k k'); [discriminate | ].
  intros Hm. now rewrite IH.
Qed.

(** The configuration [workspaces rm] saves for a known slug. *)
Lemma workspaces_rm_state (slug : string) (s : State Remote) :
  state_of (@workspaces_rm Remote E slug s)
  = if dict_mem slug (workspaces (disk s))
    then mkState
           (mkConfig (debug (disk s)) (url (disk s))
              (if String.eqb (current_workspace (disk s)) slug
               then "" else current_workspace (disk s))
              (dict_del slug (workspaces (disk s)))
              (dict_del (pipelines_section slug) (sections (disk s))))
           (remote s)
    else s.
Proof.
  unfold workspaces_rm. run_cmd.
  destruct (dict_mem slug (workspaces (disk s))); simpl; auto.
  destruct (dict_mem (pipelines_section slug) (sections (disk s))) eqn:Hsec;
    simpl;
    destruct (String.eqb (current_workspace (disk s)) slug); simpl;
    unfold set_current_workspace, set_sections, set_workspaces; simpl;
    try rewrite (dict_del_absent _ _ Hsec); reflexivity.
Qed.

End HandlerStates.

(** ** What the pipeline handlers leave alone *)

Section PipelineStates.

Context {Remote E : Type}.
Variable api : Api Remote E.
Variable host : Host.

Lemma pipelines_push_disk (path : string) (files : list string)
  (s : State Remote) :
  disk (state_of (pipelines_push api host path files s)) = disk s.
Proof. push_cases; reflexivity. Qed.

End PipelineStates.

(** X1. [pipelines push] never writes the configuration: along every path
    (whatever the file system, the operator and the backend answer) the
    stored configuration is the one the handler started from and no save
    is logged.  [pipelines list] leaves the whole persistent state as it
    was and makes no create or upload call. *)
Theorem pipelines_never_write_config :
  forall (Remote E : Type) (api : Api Remote E) (host : Host)
         (s : State Remote) (path : string) (files : list string),
    disk (state_of (pipelines_push api host path files s)) = disk s
    /\ count is_save (trace_of (pipelines_push api host path files s)) = 0
    /\ state_of (pipelines_list api s) = s
    /\ count is_save (trace_of (pipelines_list api s)) = 0
    /\ count is_create (trace_of (pipelines_list api s)) = 0
    /\ count is_upload (trace_of (pipelines_list api s)) = 0.
Proof.
  intros Remote E api host s path files.
  split; [apply pipelines_push_disk | ].
  split; [push_cases; reflexivity | ].
  split; [apply pipelines_list_state | ].
  assert (Hecho : forall (p : event -> bool) (lines : list string),
             p (Echo false "") = false ->
             (forall m, p (Echo false m) = p (Echo false "")) ->
             length (filter p (map (Echo false) lines)) = 0).
  { intros p lines H0 Hp.
    induction lines as [|l lines IH]; simpl; auto.
    rewrite (Hp l), H0. exact IH. }
  unfold pipelines_list. run_cmd.
  destruct (String.eqb (current_workspace (disk s)) ""); simpl; auto.
  destruct (get_pipelines api (disk s) (remote s)) as [e|ps]; simpl; auto.
  destruct ps as [|i ps]; simpl; auto.
  unfold bind, echo. simpl. rewrite echo_each_run. unfold count. simpl.
  repeat split; apply Hecho; reflexivity.
Qed.

(** X2. Along every path of [pipelines push]: the handler returns normally
    exactly when its upload call returned a version; it asks at most one
    confirmation and makes at most one create and at most one upload call;
    and when it makes neither of the two, the backend state is the one it
    started from. *)
Theorem push_returns_iff_uploaded :
  forall (Remote E : Type) (api : Api Remote E) (host : Host)
         (s : State Remote) (path : string) (files : list string),
    (result_of (pipelines_push api host path files s) = Ok tt
     <-> exists N : Z,
           In (UploadPipeline path files (Some N))
             (trace_of (pipelines_push api host path files s)))
    /\ count is_confirm (trace_of (pipelines_push api host path files s)) <= 1
    /\ count is_create (trace_of (pipelines_push api host path files s)) <= 1
    /\ count is_upload (trace_of (pipelines_push api host path files s)) <= 1
    /\ (count is_create (trace_of (pipelines_push api host path files s)) = 0 ->
        count is_upload (trace_of (pipelines_push api host path files s)) = 0 ->
        remote (state_of (pipelines_push api host path files s)) = remote s).
Proof.
  intros Remote E api host s path files.
  push_cases.
  all: unfold count; simpl.
  all: split;
    [ split;
      [ intros Hres; try discriminate Hres; eexists; simpl; tauto
      | intros [N Hin]; try reflexivity; exfalso; no_upload_in Hin ]
    | repeat split; try lia; intros; try reflexivity; discriminate ].
Qed.

Lemma push_returns_iff_uploaded_witness :
  count is_create
    (trace_of (pipelines_push sample_api (sample_host No) "pipeline.py" []
                 (mkState sample_config []))) = 0
  /\ count is_upload
       (trace_of (pipelines_push sample_api (sample_host No) "pipeline.py" []
                    (mkState sample_config []))) = 0
  /\ remote (state_of (pipelines_push sample_api (sample_host No)
                         "pipeline.py" [] (mkState sample_config [])))
     = [].
Proof.
  split; [reflexivity | split; [reflexivity | ]].
  apply (push_returns_iff_uploaded _ _ sample_api (sample_host No)
           (mkState sample_config []) "pipeline.py" []); reflexivity.
Defined.

(** X3. With an active workspace, [pipelines push] on a path that does not
    exist prints [<path>: file not found] on the error stream and leaves
    through [sys.exit(1)]: nothing is imported, no backend call is made and
    the persistent state is untouched. *)
Theorem push_missing_file :
  forall (Remote E : Type) (api : Api Remote E) (host : Host)
         (s : State Remote) (path : string) (files : list string),
    current_workspace (disk s) <> "" ->
    path_exists host path = false ->
    pipelines_push api host path files s
    = (Exit 1, s, [Echo true (path ++ ": file not found")]).
Proof.
  intros Remote E api host s path files Hws Hpath.
  unfold pipelines_push. run_cmd.
  rewrite (eqb_empty_false _ Hws), Hpath. reflexivity.
Qed.

Lemma push_missing_file_witness :
  current_workspace (disk (mkState sample_config ([] : list PipelineInfo)))
  <> ""
  /\ path_exists (mkHost (fun _ => false) (fun _ => Yes)) "gone.py" = false
  /\ pipelines_push sample_api (mkHost (fun _ => false) (fun _ => Yes))
       "gone.py" [] (mkState sample_config [])
     = (Exit 1, mkState sample_config [],
        [Echo true "gone.py: file not found"]).
Proof.
  assert (Hws : current_workspace
                  (disk (mkState sample_config ([] : list PipelineInfo)))
                <> "").
  { simpl. discriminate. }
  split; [exact Hws | split; [reflexivity | ]].
  apply (push_missing_file _ _ sample_api
           (mkHost (fun _ => false) (fun _ => Yes))
           (mkState sample_config []) "gone.py" [] Hws eq_refl).
Defined.

(** X4. With an active workspace and an existing path, when the import of
    the pipeline raises [e], [pipelines push] prints [Error while importing
    pipeline] on the error stream and then, with debug on, raises [e], with
    debug off, leaves through [sys.exit(1)]; in both cases no backend call
    is made and the persistent state is untouched. *)
Theorem push_import_failure :
  forall (Remote E : Type) (api : Api Remote E) (host : Host)
         (s : State Remote) (path : string) (files : list string) (e : E),
    current_workspace (disk s) <> "" ->
    path_exists host path = true ->
    import_pipeline api (disk s) path = inl e ->
    pipelines_push api host path files s
    = (if is_debug api (disk s) then Raise (Error e) else Exit 1, s,
       [ImportPipeline path; Echo true "Error while importing pipeline"]).
Proof.
  intros Remote E api host s path files e Hws Hpath Himp.
  unfold pipelines_push. run_cmd.
  rewrite (eqb_empty_false _ Hws), Hpath. simpl. rewrite Himp. simpl.
  now destruct (is_debug api (disk s)).
Qed.

(** X5. In a push that gets past the import: when the listing raises [e],
    the handler raises [e] right after that call; when the listing succeeds
    and the lookup by code raises [e], the handler raises [e] without
    prompting.  In both cases no create and no upload call is made and the
    persistent state is untouched. *)
Theorem push_lookup_failure :
  forall (Remote E : Type) (api : Api Remote E) (host : Host)
         (s : State Remote) (path : string) (files : list string)
         (p : Pipeline) (e : E),
    current_workspace (disk s) <> "" ->
    path_exists host path = true ->
    import_pipeline api (disk s) path = inr p ->
    (get_pipelines api (disk s) (remote s) = inl e ->
     pipelines_push api host path files s
     = (Raise (Error e), s, [ImportPipeline path; GetPipelines]))
    /\ (forall ps : list PipelineInfo,
          get_pipelines api (disk s) (remote s) = inr ps ->
          get_pipeline api (disk s) (code p) (remote s) = inl e ->
          result_of (pipelines_push api host path files s) = Raise (Error e)
          /\ state_of (pipelines_push api host path files s) = s
          /\ count is_confirm
               (trace_of (pipelines_push api host path files s)) = 0
          /\ count is_create
               (trace_of (pipelines_push api host path files s)) = 0
          /\ count is_upload
               (trace_of (pipelines_push api host path files s)) = 0).
Proof.
  intros Remote E api host s path files p e Hws Hpath Himp.
  unfold pipelines_push. run_cmd.
  rewrite (eqb_empty_false _ Hws), Hpath. simpl. rewrite Himp. simpl.
  split.
  - intros Hlist. rewrite Hlist. reflexivity.
  - intros ps Hlist Hget. rewrite Hlist. simpl.
    destruct (is_debug api (disk s)); simpl; rewrite Hget; simpl;
      repeat split; reflexivity.
Qed.

(** X6. In a push that finds no pipeline with the resolved code and whose
    prompt is accepted, when the create call raises [e] the handler raises
    [e]: the create call is the last event, no upload call is made, and the
    backend is left in the state the failed create produced. *)
Theorem push_create_failure :
  forall (Remote E : Type) (api : Api Remote E) (host : Host)
         (s : State Remote) (path : string) (files : list string)
         (p : Pipeline) (ps : list PipelineInfo) (r1 : Remote) (e : E),
    current_workspace (disk s) <> "" ->
    path_exists host path = true ->
    import_pipeline api (disk s) path = inr p ->
    get_pipelines api (disk s) (remote s) = inr ps ->
    get_pipeline api (disk s) (code p) (remote s) = inr None ->
    operator host (create_prompt (current_workspace (disk s)) (code p)) = Yes
    \/ operator host (create_prompt (current_workspace (disk s)) (code p))
       = Enter ->
    create_pipeline api (disk s) (code p) (remote s) = (r1, inl e) ->
    result_of (pipelines_push api host path files s) = Raise (Error e)
    /\ state_of (pipelines_push api host path files s)
       = mkState (disk s) r1
    /\ count is_upload (trace_of (pipelines_push api host path files s)) = 0
    /\ exists pre : list event,
         trace_of (pipelines_push api host path files s)
         = (pre ++ [CreatePipeline (code p)])%list.
Proof.
  intros Remote E api host s path files p ps r1 e Hws Hpath Himp Hlist Hget
    Hop Hcreate.
  unfold pipelines_push. run_cmd.
  rewrite (eqb_empty_false _ Hws), Hpath. simpl. rewrite Himp. simpl.
  rewrite Hlist. simpl.
  destruct (is_debug api (disk s)); simpl; rewrite Hget; simpl;
    (destruct Hop as [Hop|Hop]; rewrite Hop; simpl; rewrite Hcreate; simpl).
  all: repeat split; try reflexivity.
  all: solve [ before_last; reflexivity ].
Qed.

(** X7. Whenever the upload call of [pipelines push] raises, the handler
    raises that error and the failed upload is the last event of the run:
    no version and no link are printed after it. *)
Theorem push_upload_failure :
  forall (Remote E : Type) (api : Api Remote E) (host : Host)
         (s : State Remote) (path : string) (files : list string),
    In (UploadPipeline path files None)
      (trace_of (pipelines_push api host path files s)) ->
    exists (e : E) (r1 r2 : Remote) (pre : list event),
      upload_pipeline api (disk s) path files r1 = (r2, inl e)
      /\ result_of (pipelines_push api host path files s) = Raise (Error e)
      /\ remote (state_of (pipelines_push api host path files s)) = r2
      /\ trace_of (pipelines_push api host path files s)
         = (pre ++ [UploadPipeline path files None])%list.
Proof.
  intros Remote E api host s path files.
  push_cases.
  all: intros Hin; no_upload_in Hin.
  all: solve [ eexists; eexists; eexists; before_last;
               (split; [eassumption | ]);
               (split; [reflexivity | ]);
               (split; reflexivity) ].
Qed.

(** ** Invariants of the whole command line *)

Section MainFacts.

Context {Remote E : Type}.
Variable api : Api Remote E.
Variable host : Host.

Lemma app_run (flag : bool) (s : State Remote) :
  @app Remote E flag s
  = (Ok tt, mkState (set_debug (str_bool flag) (disk s)) (remote s),
     [SaveConfig (set_debug (str_bool flag) (disk s))]).
Proof. reflexivity. Qed.

Lemma workspaces_add_preserves (I : State Remote -> Prop)
  (slug token : string) :
  (forall s, I s ->
     I (mkState
          (set_current_workspace slug
             (set_workspaces (dict_set slug token (workspaces (disk s)))
                (disk s)))
          (remote s))) ->
  preserves I (workspaces_add api slug token).
Proof.
  intros HI s Hs.
  destruct (workspaces_add_state api slug token s) as [H|H]; rewrite H; auto.
Qed.

Lemma workspaces_activate_preserves (I : State Remote -> Prop)
  (slug : string) :
  (forall s, dict_mem slug (workspaces (disk s)) = true -> I s ->
     I (mkState (set_current_workspace slug (disk s)) (remote s))) ->
  preserves I (@workspaces_activate Remote E slug).
Proof.
  intros HI s Hs.
  destruct (workspaces_activate_state (E:=E) slug s) as [H|[Hm H]];
    rewrite H; auto.
Qed.

Lemma workspaces_rm_preserves (I : State Remote -> Prop) (slug : string) :
  (forall s, dict_mem slug (workspaces (disk s)) = true -> I s ->
     I (mkState
          (mkConfig (debug (disk s)) (url (disk s))
             (if String.eqb (current_workspace (disk s)) slug
              then "" else current_workspace (disk s))
             (dict_del slug (workspaces (disk s)))
             (dict_del (pipelines_section slug) (sections (disk s))))
          (remote s))) ->
  preserves I (@workspaces_rm Remote E slug).
Proof.
  intros HI s Hs. rewrite workspaces_rm_state.
  destruct (dict_mem slug (workspaces (disk s))) eqn:Hm; auto.
Qed.

Lemma config_set_url_preserves (I : State Remote -> Prop)
  (new_url : string) :
  (forall s, I s -> I (mkState (set_url new_url (disk s)) (remote s))) ->
  preserves I (@config_set_url Remote E new_url).
Proof. intros HI s Hs. rewrite config_set_url_state. auto. Qed.

Lemma pipelines_push_preserves (I : State Remote -> Prop)
  (path : string) (files : list string) :
  (forall s r, I s -> I (mkState (disk s) r)) ->
  preserves I (pipelines_push api host path files).
Proof.
  intros HI s Hs.
  rewrite <- (state_eta (state_of (pipelines_push api host path files s))).
  rewrite pipelines_push_disk. auto.
Qed.

(** A property of the persistent state that holds once [app] has stored
    the debug flag, and that every writing handler keeps, holds after the
    command line. *)
Lemma main_state_inv (I : State Remote -> Prop) (flag : bool)
  (cmd : command) (s : State Remote) :
  I (mkState (set_debug (str_bool flag) (disk s)) (remote s)) ->
  (forall slug token s0, I s0 ->
     I (mkState
          (set_current_workspace slug
             (set_workspaces (dict_set slug token (workspaces (disk s0)))
                (disk s0)))
          (remote s0))) ->
  (forall slug s0, dict_mem slug (workspaces (disk s0)) = true -> I s0 ->
     I (mkState (set_current_workspace slug (disk s0)) (remote s0))) ->
  (forall slug s0, dict_mem slug (workspaces (disk s0)) = true -> I s0 ->
     I (mkState
          (mkConfig (debug (disk s0)) (url (disk s0))
             (if String.eqb (current_workspace (disk s0)) slug
              then "" else current_workspace (disk s0))
             (dict_del slug (workspaces (disk s0)))
             (dict_del (pipelines_section slug) (sections (disk s0))))
          (remote s0))) ->
  (forall new_url s0, I s0 ->
     I (mkState (set_url new_url (disk s0)) (remote s0))) ->
  (is_push cmd = true -> forall s0 r, I s0 -> I (mkState (disk s0) r)) ->
  I (state_of (main api host flag cmd s)).
Proof.
  intros Hs Hadd Hact Hrm Hurl Hpush.
  unfold main. rewrite state_of_bind, app_run.
  destruct cmd as [[[slug token|slug| |slug]|]|[[new_url]|]
                  |[[path files|]|]];
    unfold workspaces_group, pipelines;
    (apply (preserves_bind I); [ | intros _ | exact Hs ]).
  all: try apply preserves_ret.
  all: try (apply preserves_same; intros s0;
            first [ apply workspaces_list_state
                  | apply config_state
                  | apply pipelines_list_state ]).
  - apply workspaces_add_preserves. auto.
  - apply workspaces_activate_preserves. auto.
  - apply workspaces_rm_preserves. auto.
  - apply config_set_url_preserves. auto.
  - apply pipelines_push_preserves. auto.
Qed.

End MainFacts.

Lemma main_step_inv {Remote E : Type} (api : Api Remote E)
  (I : Config -> Prop) (c : Config)
  (i : bool * Host * Remote * command) :
  (forall v c0, I c0 -> I (set_debug v c0)) ->
  (forall slug token c0, I c0 ->
     I (set_current_workspace slug
          (set_workspaces (dict_set slug token (workspaces c0)) c0))) ->
  (forall slug c0, dict_mem slug (workspaces c0) = true -> I c0 ->
     I (set_current_workspace slug c0)) ->
  (forall slug c0, dict_mem slug (workspaces c0) = true -> I c0 ->
     I (mkConfig (debug c0) (url c0)
          (if String.eqb (current_workspace c0) slug
           then "" else current_workspace c0)
          (dict_del slug (workspaces c0))
          (dict_del (pipelines_section slug) (sections c0)))) ->
  (forall new_url c0, I c0 -> I (set_url new_url c0)) ->
  I c -> I (main_step api c i).
Proof.
  intros Hdebug Hadd Hact Hrm Hurl Hc.
  destruct i as [[[flag h] r] cmd]. unfold main_step.
  apply (main_state_inv api h (fun s => I (disk s))); simpl; auto.
Qed.

(** X8. Whatever command lines are run, in any order, with any flags, on
    any machine and against any backend state, a stored configuration in
    which [current_workspace] is empty or a known slug and no slug occurs
    twice stays such a configuration. *)
Theorem cli_keeps_config_ok :
  forall (Remote E : Type) (api : Api Remote E) (c : Config)
         (l : list (bool * Host * Remote * command)),
    config_ok c -> config_ok (run_commands api c l).
Proof.
  intros Remote E api c l. unfold run_commands. revert c.
  induction l as [|i l IH]; intros c Hok; simpl; auto.
  apply IH. apply (main_step_inv api config_ok); auto;
    unfold config_ok; simpl.
  - intros slug token c0 [_ Hnd]. split.
    + right. apply dict_mem_keys, dict_mem_set_same.
    + now apply dict_set_NoDup.
  - intros slug c0 Hm [_ Hnd]. split; auto.
    right. now apply dict_mem_keys.
  - intros slug c0 Hm [Hcur Hnd]. split.
    + destruct (String.eqb_spec (current_workspace c0) slug) as [Heq|Hne];
        [now left | ].
      destruct Hcur as [Hcur|Hcur]; [now left | right].
      apply dict_mem_keys. rewrite dict_mem_del_other; auto.
      now apply dict_mem_keys.
    + now apply dict_del_NoDup.
Qed.

Lemma cli_keeps_config_ok_witness :
  config_ok (default_config "https://app.example.org")
  /\ config_ok (run_commands sample_api
                  (default_config "https://app.example.org") sample_commands).
Proof.
  assert (H : config_ok (default_config "https://app.example.org")).
  { split; [now left | constructor]. }
  split; [exact H | ].
  apply (cli_keeps_config_ok _ _ sample_api _ sample_commands H).
Defined.

(** X9. Every command line stores the debug flag it was started with: after
    the process, however the subcommand ended (normal return, [sys.exit],
    exception), the stored [debug] option is [str(flag)]. *)
Theorem main_persists_debug_flag :
  forall (Remote E : Type) (api : Api Remote E) (host : Host) (flag : bool)
         (cmd : command) (s : State Remote),
    debug (disk (state_of (main api host flag cmd s))) = str_bool flag.
Proof.
  intros Remote E api host flag cmd s.
  apply (main_state_inv api host
           (fun s0 => debug (disk s0) = str_bool flag));
    simpl; auto.
Qed.

(** X10. Only [pipelines push] can change the backend: after any other
    command line the remote state is the one the process started with. *)
Theorem only_push_changes_backend :
  forall (Remote E : Type) (api : Api Remote E) (host : Host) (flag : bool)
         (cmd : command) (s : State Remote),
    is_push cmd = false ->
    remote (state_of (main api host flag cmd s)) = remote s.
Proof.
  intros Remote E api host flag cmd s Hpush.
  apply (main_state_inv api host (fun s0 => remote s0 = remote s));
    simpl; auto.
  rewrite Hpush. discriminate.
Qed.

Lemma only_push_changes_backend_witness :
  is_push (Workspaces (Some (WsAdd "ws3" "secret"))) = false
  /\ remote (state_of (main sample_api (sample_host Yes) false
                         (Workspaces (Some (WsAdd "ws3" "secret")))
                         (mkState sample_config [sample_pipeline])))
     = [sample_pipeline].
Proof.
  split; [reflexivity | ].
  apply (only_push_changes_backend _ _ sample_api (sample_host Yes) false
           (Workspaces (Some (WsAdd "ws3" "secret")))
           (mkState sample_config [sample_pipeline]) eq_refl).
Defined.

(** X11. The listing and summary commands ([workspaces] with no subcommand,
    [workspaces list], [config] with no subcommand) and every [pipelines]
    command line change nothing in the stored configuration but the debug
    flag written by [app]. *)
Theorem read_only_commands :
  forall (Remote E : Type) (api : Api Remote E) (host : Host) (flag : bool)
         (cmd : command) (s : State Remote),
    read_only cmd = true ->
    disk (state_of (main api host flag cmd s))
    = set_debug (str_bool flag) (disk s).
Proof.
  intros Remote E api host flag cmd s Hro.
  unfold main. rewrite state_of_bind, app_run.
  pose (I := fun s0 : State Remote =>
               disk s0 = set_debug (str_bool flag) (disk s)).
  destruct cmd as [[[slug token|slug| |slug]|]|[[new_url]|]
                  |[[path files|]|]];
    try discriminate Hro; unfold workspaces_group, pipelines;
    (apply (preserves_bind I); [ | intros _ | reflexivity ]).
  all: try apply preserves_ret.
  all: try (apply preserves_same; intros s0;
            first [ apply workspaces_list_state
                  | apply config_state
                  | apply pipelines_list_state ]).
  apply pipelines_push_preserves. auto.
Qed.

Lemma read_only_commands_witness :
  read_only (Pipelines (Some (PlPush "pipeline.py" []))) = true
  /\ disk (state_of (main sample_api (sample_host Yes) true
                       (Pipelines (Some (PlPush "pipeline.py" [])))
                       (mkState sample_config [])))
     = sample_debug_config.
Proof.
  split; [reflexivity | ].
  apply (read_only_commands _ _ sample_api (sample_host Yes) true
           (Pipelines (Some (PlPush "pipeline.py" [])))
           (mkState sample_config []) eq_refl).
Defined.

Lemma push_import_failure_witness :
  current_workspace (disk (mkState sample_config ([] : list PipelineInfo)))
  <> ""
  /\ path_exists (sample_host Yes) "pipeline.py" = true
  /\ import_pipeline (broken_api "import") sample_config "pipeline.py"
     = inl "import failed"
  /\ pipelines_push (broken_api "import") (sample_host Yes) "pipeline.py" []
       (mkState sample_config [])
     = (Exit 1, mkState sample_config [],
        [ImportPipeline "pipeline.py";
         Echo true "Error while importing pipeline"]).
Proof.
  assert (Hws : current_workspace
                  (disk (mkState sample_config ([] : list PipelineInfo)))
                <> "").
  { simpl. discriminate. }
  split; [exact Hws | split; [reflexivity | split; [reflexivity | ]]].
  apply (push_import_failure _ _ (broken_api "import") (sample_host Yes)
           (mkState sample_config []) "pipeline.py" [] "import failed"
           Hws eq_refl eq_refl).
Defined.

Lemma push_lookup_failure_witness :
  current_workspace (disk (mkState sample_config ([] : list PipelineInfo)))
  <> ""
  /\ path_exists (sample_host Yes) "pipeline.py" = true
  /\ import_pipeline (broken_api "list") sample_config "pipeline.py"
     = inr (mkPipeline "X")
  /\ get_pipelines (broken_api "list") sample_config [] = inl "list failed"
  /\ pipelines_push (broken_api "list") (sample_host Yes) "pipeline.py" []
       (mkState sample_config [])
     = (Raise (Error "list failed"), mkState sample_config [],
        [ImportPipeline "pipeline.py"; GetPipelines]).
Proof.
  assert (Hws : current_workspace
                  (disk (mkState sample_config ([] : list PipelineInfo)))
                <> "").
  { simpl. discriminate. }
  split; [exact Hws | ].
  repeat (split; [reflexivity | ]).
  destruct (push_lookup_failure _ _ (broken_api "list") (sample_host Yes)
              (mkState sample_config []) "pipeline.py" [] (mkPipeline "X")
              "list failed" Hws eq_refl eq_refl) as [Hlist _].
  exact (Hlist eq_refl).
Defined.

Lemma push_create_failure_witness :
  current_workspace (disk (mkState sample_config ([] : list PipelineInfo)))
  <> ""
  /\ path_exists (sample_host Yes) "pipeline.py" = true
  /\ import_pipeline (broken_api "create") sample_config "pipeline.py"
     = inr (mkPipeline "X")
  /\ get_pipelines (broken_api "create") sample_config [] = inr []
  /\ get_pipeline (broken_api "create") sample_config "X" [] = inr None
  /\ operator (sample_host Yes) (create_prompt "ws1" "X") = Yes
  /\ create_pipeline (broken_api "create") sample_config "X" []
     = ([], inl "create failed")
  /\ result_of (pipelines_push (broken_api "create") (sample_host Yes)
                  "pipeline.py" [] (mkState sample_config []))
     = Raise (Error "create failed").
Proof.
  assert (Hws : current_workspace
                  (disk (mkState sample_config ([] : list PipelineInfo)))
                <> "").
  { simpl. discriminate. }
  split; [exact Hws | ].
  repeat (split; [reflexivity | ]).
  apply (push_create_failure _ _ (broken_api "create") (sample_host Yes)
           (mkState sample_config []) "pipeline.py" [] (mkPipeline "X") []
           [] "create failed" Hws eq_refl eq_refl eq_refl eq_refl
           (or_introl eq_refl) eq_refl).
Defined.

Lemma push_upload_failure_witness :
  In (UploadPipeline "pipeline.py" [] None)
    (trace_of (pipelines_push (broken_api "upload") (sample_host Yes)
                 "pipeline.py" [] (mkState sample_config [sample_pipeline])))
  /\ exists (e : string) (pre : list event),
       result_of (pipelines_push (broken_api "upload") (sample_host Yes)
                    "pipeline.py" []
                    (mkState sample_config [sample_pipeline]))
       = Raise (Error e)
       /\ trace_of (pipelines_push (broken_api "upload") (sample_host Yes)
                      "pipeline.py" []
                      (mkState sample_config [sample_pipeline]))
          = (pre ++ [UploadPipeline "pipeline.py" [] None])%list.
Proof.
  assert (Hin :
    In (UploadPipeline "pipeline.py" [] None)
      (trace_of (pipelines_push (broken_api "upload") (sample_host Yes)
                   "pipeline.py" []
                   (mkState sample_config [sample_pipeline])))).
  { simpl. tauto. }
  split; [exact Hin | ].
  destruct (push_upload_failure _ _ (broken_api "upload") (sample_host Yes)
              (mkState sample_config [sample_pipeline]) "pipeline.py" [] Hin)
    as (e & r1 & r2 & pre & _ & Hres & _ & Htr).
  exists e, pre. split; [exact Hres | exact Htr].
Defined.

(** ** The listing, continued *)

(** X12. With an active workspace, [pipelines list] makes the one listing
    call; when it raises [e] the handler raises [e] and prints nothing;
    when it returns no pipeline the handler prints [No pipelines in
    workspace <slug>]; otherwise it prints the header [Pipelines:] and one
    line per pipeline, in the order of the listing.  The persistent state
    is untouched in all three cases. *)
Theorem pipelines_list_output :
  forall (Remote E : Type) (api : Api Remote E) (s : State Remote),
    current_workspace (disk s) <> "" ->
    pipelines_list api s
    = match get_pipelines api (disk s) (remote s) with
      | inl e => (Raise (Error e), s, [GetPipelines])
      | inr [] =>
          (Ok tt, s,
           [GetPipelines;
            Echo false
              ("No pipelines in workspace " ++ current_workspace (disk s))])
      | inr ps =>
          (Ok tt, s,
           GetPipelines :: Echo false "Pipelines:"
             :: map (fun p => Echo false (render_pipeline p)) ps)
      end.
Proof.
  intros Remote E api s Hws. unfold pipelines_list. run_cmd.
  rewrite (eqb_empty_false _ Hws). simpl.
  destruct (get_pipelines api (disk s) (remote s)) as [e|[|i ps]]; simpl;
    try reflexivity.
  unfold bind, echo. simpl. rewrite echo_each_run. now rewrite map_map.
Qed.

Lemma pipelines_list_output_witness :
  current_workspace (disk (mkState sample_config ([] : list PipelineInfo)))
  <> ""
  /\ pipelines_list sample_api (mkState sample_config [])
     = (Ok tt, mkState sample_config [],
        [GetPipelines; Echo false "No pipelines in workspace ws1"]).
Proof.
  assert (Hws : current_workspace
                  (disk (mkState sample_config ([] : list PipelineInfo)))
                <> "").
  { simpl. discriminate. }
  split; [exact Hws | ].
  apply (pipelines_list_output _ _ sample_api (mkState sample_config []) Hws).
Defined.

(** ** Workspaces, continued *)

Section DictMoreFacts.

Context {V : Type}.
Implicit Types (k : string) (v : V) (d : dict V).

Lemma dict_set_set k v1 v2 d :
  dict_set k v2 (dict_set k v1 d) = dict_set k v2 d.
Proof.
  induction d as [|[k' v'] d IH]; simpl.
  - now rewrite String.eqb_refl.
  - destruct (String.eqb k k') eqn:Hk; simpl; rewrite Hk; auto.
    now rewrite IH.
Qed.

Lemma dict_del_set_fresh k v d :
  dict_mem k d = false -> dict_del k (dict_set k v d) = d.
Proof.
  unfold dict_mem. induction d as [|[k' v'] d IH]; simpl.
  - now rewrite String.eqb_refl.
  - destruct (String.eqb k k') eqn:Hk; [discriminate | ].
    intros Hm. simpl. rewrite Hk. now rewrite IH.
Qed.

Lemma dict_keys_del k d :
  dict_keys (dict_del k d)
  = filter (fun k' => negb (String.eqb k k')) (dict_keys d).
Proof.
  induction d as [|[k' v'] d IH]; simpl; auto.
  destruct (String.eqb k k'); simpl; now rewrite IH.
Qed.

End DictMoreFacts.

Lemma workspaces_add_ok_state {Remote E : Type} (api : Api Remote E)
  (slug token : string) (s : State Remote) :
  result_of (workspaces_add api slug token s) = Ok tt ->
  state_of (workspaces_add api slug token s)
  = mkState
      (set_current_workspace slug
         (set_workspaces (dict_set slug token (workspaces (disk s)))
            (disk s)))
      (remote s).
Proof.
  unfold workspaces_add. run_cmd.
  destruct (dict_mem slug (workspaces (disk s))); run_cmd;
    (destruct (get_workspace api (disk s) slug token (remote s)); simpl;
     [destruct (is_debug api (disk s)); simpl | ]);
    intros H; try discriminate H; reflexivity.
Qed.

Lemma workspaces_add_first_lines {Remote E : Type} (api : Api Remote E)
  (s : State Remote) (slug token : string) :
  exists rest : list event,
    trace_of (workspaces_add api slug token s)
    = Echo false
        (if dict_mem slug (workspaces (disk s))
         then "Workspace " ++ slug
              ++ " already exists. We will only update its token."
         else "Adding workspace " ++ slug)
        :: GetWorkspace slug token :: rest.
Proof.
  unfold workspaces_add. run_cmd.
  destruct (dict_mem slug (workspaces (disk s))); run_cmd;
    (destruct (get_workspace api (disk s) slug token (remote s)); simpl;
     [destruct (is_debug api (disk s)); simpl | ]);
    eexists; reflexivity.
Qed.

(** X13. [workspaces add slug token] first says whether the slug is new or
    only its token is updated, then makes one validation call with the
    given slug and token.  When it returns normally, the saved
    configuration differs from the one read only in the entry of the slug
    and in [current_workspace]: a known slug keeps its place in the order
    of the workspaces, a new one goes last, every other slug keeps its
    token, and the debug flag, the URL and the sections are the same.  The
    backend state is unchanged. *)
Theorem workspaces_add_saved_config :
  forall (Remote E : Type) (api : Api Remote E) (s : State Remote)
         (slug token : string),
    (exists rest : list event,
        trace_of (workspaces_add api slug token s)
        = Echo false
            (if dict_mem slug (workspaces (disk s))
             then "Workspace " ++ slug
                  ++ " already exists. We will only update its token."
             else "Adding workspace " ++ slug)
            :: GetWorkspace slug token :: rest)
    /\ (result_of (workspaces_add api slug token s) = Ok tt ->
        debug (disk (state_of (workspaces_add api slug token s)))
        = debug (disk s)
        /\ url (disk (state_of (workspaces_add api slug token s)))
           = url (disk s)
        /\ sections (disk (state_of (workspaces_add api slug token s)))
           = sections (disk s)
        /\ dict_keys
             (workspaces (disk (state_of (workspaces_add api slug token s))))
           = (if dict_mem slug (workspaces (disk s))
              then dict_keys (workspaces (disk s))
              else (dict_keys (workspaces (disk s)) ++ [slug])%list)
        /\ (forall k : string,
               k <> slug ->
               dict_get k
                 (workspaces
                    (disk (state_of (workspaces_add api slug token s))))
               = dict_get k (workspaces (disk s)))
        /\ remote (state_of (workspaces_add api slug token s)) = remote s).
Proof.
  intros Remote E api s slug token. split.
  - apply workspaces_add_first_lines.
  - intros Hok. rewrite (workspaces_add_ok_state api slug token s Hok).
    simpl. repeat split; auto.
    + apply dict_keys_set.
    + intros k Hk. now apply dict_get_set_other.
Qed.

Lemma workspaces_add_saved_config_witness :
  result_of (workspaces_add sample_api "ws3" "secret"
               (mkState sample_config []))
  = Ok tt
  /\ dict_keys
       (workspaces
          (disk (state_of (workspaces_add sample_api "ws3" "secret"
                             (mkState sample_config [])))))
     = ["ws1"; "ws2"; "ws3"].
Proof.
  split; [reflexivity | ].
  destruct (workspaces_add_saved_config _ _ sample_api
              (mkState sample_config []) "ws3" "secret") as [_ H].
  destruct (H eq_refl) as (_ & _ & _ & Hkeys & _).
  exact Hkeys.
Defined.

(** X14. The most recent token wins and leaves no trace of the earlier one:
    after [workspaces add slug t1] and then [workspaces add slug t2], both
    returning normally, the stored configuration is exactly the one a
    single [workspaces add slug t2] saves, and the second run announces an
    update of an existing workspace. *)
Theorem workspaces_add_last_token_wins :
  forall (Remote E : Type) (api : Api Remote E) (s : State Remote)
         (slug t1 t2 : string),
    result_of (workspaces_add api slug t1 s) = Ok tt ->
    result_of (workspaces_add api slug t2
                 (state_of (workspaces_add api slug t1 s))) = Ok tt ->
    disk (state_of (workspaces_add api slug t2
                      (state_of (workspaces_add api slug t1 s))))
    = set_current_workspace slug
        (set_workspaces (dict_set slug t2 (workspaces (disk s))) (disk s))
    /\ In (Echo false ("Workspace " ++ slug
                       ++ " already exists. We will only update its token."))
         (trace_of (workspaces_add api slug t2
                      (state_of (workspaces_add api slug t1 s)))).
Proof.
  intros Remote E api s slug t1 t2 H1 H2.
  split.
  - rewrite (workspaces_add_ok_state api slug t2 _ H2).
    rewrite (workspaces_add_ok_state api slug t1 s H1). simpl.
    unfold set_current_workspace, set_workspaces. simpl.
    now rewrite dict_set_set.
  - destruct (workspaces_add_first_lines api
                (state_of (workspaces_add api slug t1 s)) slug t2)
      as [rest Hrest].
    rewrite Hrest.
    rewrite (workspaces_add_ok_state api slug t1 s H1). simpl.
    rewrite dict_mem_set_same. now left.
Qed.

Lemma workspaces_add_last_token_wins_witness :
  result_of (workspaces_add sample_api "ws2" "wrong"
               (mkState sample_config []))
  = Ok tt
  /\ result_of
       (workspaces_add sample_api "ws2" "secret"
          (state_of (workspaces_add sample_api "ws2" "wrong"
                       (mkState sample_config []))))
     = Ok tt
  /\ workspaces
       (disk (state_of
                (workspaces_add sample_api "ws2" "secret"
                   (state_of (workspaces_add sample_api "ws2" "wrong"
                                (mkState sample_config []))))))
     = [("ws1", "secret"); ("ws2", "secret")].
Proof.
  split; [reflexivity | split; [reflexivity | ]].
  destruct (workspaces_add_last_token_wins _ _ sample_api
              (mkState sample_config []) "ws2" "wrong" "secret"
              eq_refl eq_refl) as [Hdisk _].
  now rewrite Hdisk.
Defined.

(** X15. For a slug that is a key of the workspaces mapping, [workspaces
    activate slug] prints [Activating workspace <slug>], saves the
    configuration it read with only [current_workspace] set to the slug,
    and returns normally; it makes no backend call. *)
Theorem workspaces_activate_known :
  forall (Remote E : Type) (s : State Remote) (slug : string),
    In slug (dict_keys (workspaces (disk s))) ->
    @workspaces_activate Remote E slug s
    = (Ok tt, mkState (set_current_workspace slug (disk s)) (remote s),
       [Echo false ("Activating workspace " ++ slug);
        SaveConfig (set_current_workspace slug (disk s))]).
Proof.
  intros Remote E s slug Hin. apply dict_mem_keys in Hin.
  unfold workspaces_activate. run_cmd. now rewrite Hin.
Qed.

Lemma workspaces_activate_known_witness :
  In "ws2" (dict_keys (workspaces (disk (mkState sample_config
                                           ([] : list PipelineInfo)))))
  /\ current_workspace
       (disk (state_of (@workspaces_activate (list PipelineInfo) string "ws2"
                          (mkState sample_config []))))
     = "ws2".
Proof.
  assert (Hin : In "ws2"
                  (dict_keys (workspaces
                                (disk (mkState sample_config
                                         ([] : list PipelineInfo)))))).
  { simpl. tauto. }
  split; [exact Hin | ].
  now rewrite (workspaces_activate_known (list PipelineInfo) string
                 (mkState sample_config []) "ws2" Hin).
Defined.

(** X16. [workspaces rm slug] on a known slug touches nothing else: every
    other slug keeps its token and the remaining slugs keep their order,
    every section other than [pipelines.<slug>] is kept, the debug flag and
    the URL are the same, an active workspace other than the slug stays
    active, and the backend state is unchanged. *)
Theorem workspaces_rm_keeps_others :
  forall (Remote E : Type) (s : State Remote) (slug : string),
    In slug (dict_keys (workspaces (disk s))) ->
    let c' := disk (state_of (@workspaces_rm Remote E slug s)) in
    debug c' = debug (disk s)
    /\ url c' = url (disk s)
    /\ dict_keys (workspaces c')
       = filter (fun k => negb (String.eqb slug k))
           (dict_keys (workspaces (disk s)))
    /\ (forall k : string,
           k <> slug ->
           dict_get k (workspaces c') = dict_get k (workspaces (disk s)))
    /\ (forall n : string,
           n <> pipelines_section slug ->
           dict_get n (sections c') = dict_get n (sections (disk s)))
    /\ (current_workspace (disk s) <> slug ->
        current_workspace c' = current_workspace (disk s))
    /\ remote (state_of (@workspaces_rm Remote E slug s)) = remote s.
Proof.
  intros Remote E s slug Hin c'. subst c'. apply dict_mem_keys in Hin.
  rewrite workspaces_rm_state, Hin. simpl.
  repeat split; auto.
  - apply dict_keys_del.
  - intros k Hk. now apply dict_get_del_other.
  - intros n Hn. now apply dict_get_del_other.
  - intros Hne.
    now destruct (String.eqb_spec (current_workspace (disk s)) slug).
Qed.

Lemma workspaces_rm_keeps_others_witness :
  In "ws2" (dict_keys (workspaces (disk (mkState sample_config
                                           ([] : list PipelineInfo)))))
  /\ dict_get "ws1"
       (workspaces
          (disk (state_of (@workspaces_rm (list PipelineInfo) string "ws2"
                             (mkState sample_config [])))))
     = Some "secret".
Proof.
  assert (Hin : In "ws2"
                  (dict_keys (workspaces
                                (disk (mkState sample_config
                                         ([] : list PipelineInfo)))))).
  { simpl. tauto. }
  split; [exact Hin | ].
  destruct (workspaces_rm_keeps_others (list PipelineInfo) string
              (mkState sample_config []) "ws2" Hin)
    as (_ & _ & _ & Hget & _).
  assert (Hne : "ws1" <> "ws2") by discriminate.
  rewrite (Hget "ws1" Hne). reflexivity.
Defined.

(** X17. Adding a workspace that was not known and removing it again gives
    back the workspaces mapping as it was, entry for entry and in the same
    order; the debug flag and the URL are the same; no workspace is active
    afterwards and no section [pipelines.<slug>] is left. *)
Theorem add_then_rm_restores_workspaces :
  forall (Remote E : Type) (api : Api Remote E) (s : State Remote)
         (slug token : string),
    ~ In slug (dict_keys (workspaces (disk s))) ->
    result_of (workspaces_add api slug token s) = Ok tt ->
    @workspaces_rm Remote E slug (state_of (workspaces_add api slug token s))
    = (Ok tt,
       mkState
         (mkConfig (debug (disk s)) (url (disk s)) "" (workspaces (disk s))
            (dict_del (pipelines_section slug) (sections (disk s))))
         (remote s),
       [Echo false ("Removing workspace " ++ slug);
        SaveConfig
          (mkConfig (debug (disk s)) (url (disk s)) "" (workspaces (disk s))
             (dict_del (pipelines_section slug) (sections (disk s))))]).
Proof.
  intros Remote E api s slug token Hnin Hok.
  assert (Hm : dict_mem slug (workspaces (disk s)) = false).
  { destruct (dict_mem slug (workspaces (disk s))) eqn:Hm; auto.
    exfalso. apply Hnin. now apply dict_mem_keys. }
  rewrite (workspaces_add_ok_state api slug token s Hok).
  unfold workspaces_rm. run_cmd.
  rewrite dict_mem_set_same. simpl.
  rewrite (dict_del_set_fresh _ _ _ Hm).
  destruct (dict_mem (pipelines_section slug) (sections (disk s))) eqn:Hsec;
    simpl; rewrite String.eqb_refl; simpl;
    unfold set_current_workspace, set_sections, set_workspaces; simpl;
    try rewrite (dict_del_absent _ _ Hsec); reflexivity.
Qed.

Lemma add_then_rm_restores_workspaces_witness :
  ~ In "ws3" (dict_keys (workspaces (disk (mkState sample_config
                                             ([] : list PipelineInfo)))))
  /\ result_of (workspaces_add sample_api "ws3" "secret"
                  (mkState sample_config []))
     = Ok tt
  /\ workspaces
       (disk (state_of
                (@workspaces_rm (list PipelineInfo) string "ws3"
                   (state_of (workspaces_add sample_api "ws3" "secret"
                                (mkState sample_config []))))))
     = workspaces sample_config.
Proof.
  assert (Hnin : ~ In "ws3"
                     (dict_keys (workspaces
                                   (disk (mkState sample_config
                                            ([] : list PipelineInfo)))))).
  { simpl. intros [H|[H|[]]]; discriminate H. }
  split; [exact Hnin | split; [reflexivity | ]].
  now rewrite (add_then_rm_restores_workspaces _ _ sample_api
                 (mkState sample_config []) "ws3" "secret" Hnin eq_refl).
Defined.

Lemma map_workspace_line_other (current : string) (slugs : list string) :
  ~ In current slugs ->
  map (workspace_line current) slugs = map (fun slug => "* " ++ slug) slugs.
Proof.
  induction slugs as [|slug slugs IH]; simpl; auto.
  intros Hnin. unfold workspace_line at 1.
  destruct (String.eqb_spec slug current) as [Heq|Hne]; [tauto | ].
  rewrite IH; tauto.
Qed.

Lemma workspaces_list_run {Remote E : Type} (s : State Remote) :
  @workspaces_list Remote E s
  = (Ok tt, s,
     Echo false "Workspaces:"
       :: (map (Echo false)
             (map (workspace_line (current_workspace (disk s)))
                (dict_keys (workspaces (disk s))))
           ++ [SaveConfig (disk s)])%list).
Proof.
  unfold workspaces_list. run_cmd.
  rewrite echo_each_run. simpl. rewrite state_eta. reflexivity.
Qed.

(** X18. [workspaces list] changes nothing: it prints [Workspaces:] and one
    line per workspace in insertion order, then saves the very
    configuration it read; the persistent state after the run is the one
    before it and no backend call is made. *)
Theorem workspaces_list_output :
  forall (Remote E : Type) (s : State Remote),
    @workspaces_list Remote E s
    = (Ok tt, s,
       Echo false "Workspaces:"
         :: (map (fun slug =>
                    Echo false
                      (workspace_line (current_workspace (disk s)) slug))
               (dict_keys (workspaces (disk s)))
             ++ [SaveConfig (disk s)])%list).
Proof.
  intros Remote E s. rewrite workspaces_list_run.
  now rewrite map_map.
Qed.

(** X19. When no slug occurs twice and the active workspace is a known
    slug, [workspaces list] marks exactly one line as active, the one of
    the active workspace, at its place in the order; every other line is
    the plain [* <slug>]. *)
Theorem workspaces_list_marks_active :
  forall (Remote E : Type) (s : State Remote),
    NoDup (dict_keys (workspaces (disk s))) ->
    In (current_workspace (disk s)) (dict_keys (workspaces (disk s))) ->
    exists before after : list string,
      dict_keys (workspaces (disk s))
      = (before ++ current_workspace (disk s) :: after)%list
      /\ ~ In (current_workspace (disk s)) before
      /\ ~ In (current_workspace (disk s)) after
      /\ trace_of (@workspaces_list Remote E s)
         = Echo false "Workspaces:"
             :: (map (fun slug => Echo false ("* " ++ slug)) before
                 ++ Echo false
                      (style_bold
                         ("* " ++ current_workspace (disk s) ++ " (active)"))
                 :: map (fun slug => Echo false ("* " ++ slug)) after
                 ++ [SaveConfig (disk s)])%list.
Proof.
  intros Remote E s Hnd Hin.
  destruct (in_split _ _ Hin) as (before & after & Hkeys).
  exists before, after.
  rewrite Hkeys in Hnd.
  pose proof (NoDup_remove_2 _ _ _ Hnd) as Hnot.
  assert (Hb : ~ In (current_workspace (disk s)) before).
  { intros H. apply Hnot, in_or_app. now left. }
  assert (Ha : ~ In (current_workspace (disk s)) after).
  { intros H. apply Hnot, in_or_app. now right. }
  repeat split; auto.
  rewrite workspaces_list_run. unfold trace_of. simpl.
  rewrite Hkeys, map_app. simpl.
  rewrite (map_workspace_line_other _ _ Hb),
    (map_workspace_line_other _ _ Ha).
  unfold workspace_line. rewrite String.eqb_refl.
  rewrite map_app. simpl. rewrite !map_map, <- app_assoc. reflexivity.
Qed.

Lemma workspaces_list_marks_active_witness :
  NoDup (dict_keys (workspaces (disk (mkState sample_config
                                        ([] : list PipelineInfo)))))
  /\ In (current_workspace (disk (mkState sample_config
                                    ([] : list PipelineInfo))))
       (dict_keys (workspaces (disk (mkState sample_config
                                       ([] : list PipelineInfo)))))
  /\ exists before after : list string,
       trace_of (@workspaces_list (list PipelineInfo) string
                   (mkState sample_config []))
       = Echo false "Workspaces:"
           :: (map (fun slug => Echo false ("* " ++ slug)) before
               ++ Echo false (style_bold "* ws1 (active)")
               :: map (fun slug => Echo false ("* " ++ slug)) after
               ++ [SaveConfig sample_config])%list.
Proof.
  assert (Hnd : NoDup (dict_keys (workspaces
                                    (disk (mkState sample_config
                                             ([] : list PipelineInfo)))))).
  { simpl. constructor.
    - intros [H|[]]. discriminate H.
    - constructor; [intros [] | constructor]. }
  assert (Hin : In (current_workspace (disk (mkState sample_config
                                               ([] : list PipelineInfo))))
                  (dict_keys (workspaces
                                (disk (mkState sample_config
                                         ([] : list PipelineInfo)))))).
  { simpl. tauto. }
  split; [exact Hnd | split; [exact Hin | ]].
  destruct (workspaces_list_marks_active (list PipelineInfo) string
              (mkState sample_config []) Hnd Hin)
    as (before & after & _ & _ & _ & Htr).
  exists before, after. exact Htr.
Defined.

(** ** The [config] group *)

(** X20. The command line [config set_url u] first prints the summary of
    the [config] callback, which still shows the previous URL, then stores
    [u] as the URL and nothing else (besides the debug flag of the run);
    the backend state is unchanged, and a following [config] shows [u]. *)
Theorem config_set_url_round_trip :
  forall (Remote E : Type) (api : Api Remote E) (host : Host)
         (flag flag' : bool) (s : State Remote) (u : string),
    let out := main api host flag (ConfigGroup (Some (CfgSetUrl u))) s in
    let out' := main api host flag' (ConfigGroup None) (state_of out) in
    result_of out = Ok tt
    /\ In (Echo false ("Backend URL: " ++ url (disk s))) (trace_of out)
    /\ state_of out
       = mkState (set_url u (set_debug (str_bool flag) (disk s))) (remote s)
    /\ result_of out' = Ok tt
    /\ In (Echo false ("Backend URL: " ++ u)) (trace_of out')
    /\ state_of out'
       = mkState (set_url u (set_debug (str_bool flag') (disk s))) (remote s).
Proof.
  intros Remote E api host flag flag' s u out out'.
  assert (Hout : state_of out
                 = mkState (set_url u (set_debug (str_bool flag) (disk s)))
                     (remote s)) by reflexivity.
  subst out'. rewrite Hout. subst out.
  unfold main, app, config, config_set_url. run_cmd.
  repeat split; tauto.
Qed.

(** ** What push and list print *)

Lemma str_int_inj (a b : Z) : str_int a = str_int b -> a = b.
Proof.
  unfold str_int. intros H. apply DecimalZ.to_int_inj.
  assert (Hisi : forall z : Z,
             NilZero.int_of_string (NilZero.string_of_int (Z.to_int z))
             = Some (Z.to_int z)).
  { intros z. apply NilZero.isi; destruct z; simpl; try discriminate;
      intros [= Hnil]; exact (DecimalPos.Unsigned.to_uint_nonnil _ Hnil). }
  pose proof (Hisi a) as Ha. rewrite H, Hisi in Ha. congruence.
Qed.

Lemma append_inv_head (a x y : string) : a ++ x = a ++ y -> x = y.
Proof.
  induction a as [|ch a IH]; simpl; auto.
  intros [= H]. auto.
Qed.

Lemma append_paren_inv (x y : string) : x ++ ")" = y ++ ")" -> x = y.
Proof.
  revert y. induction x as [|a x IH]; intros [|b y]; simpl; auto.
  - intros [= _ H]. destruct y; discriminate H.
  - intros [= _ H]. destruct x; discriminate H.
  - intros [= -> H]. f_equal. auto.
Qed.

(** X21. In every run of [pipelines push], a printed line [Version: M] is
    the decimal text of the very number the upload call returned: if the
    upload returned [N] and the log has the line for [M], then [M = N]. *)
Theorem push_version_line_is_upload_result :
  forall (Remote E : Type) (api : Api Remote E) (host : Host)
         (s : State Remote) (path : string) (files : list string) (N M : Z),
    In (UploadPipeline path files (Some N))
      (trace_of (pipelines_push api host path files s)) ->
    In (Echo false ("Version: " ++ str_int M))
      (trace_of (pipelines_push api host path files s)) ->
    M = N.
Proof.
  intros Remote E api host s path files N M.
  push_cases.
  all: intros Hup Hline; walk_log Hup.
  all: injection Hup as HN; subst.
  all: walk_log Hline.
  all: injection Hline as Hstr; now apply str_int_inj.
Qed.

Lemma push_version_line_is_upload_result_witness :
  In (UploadPipeline "pipeline.py" [] (Some 7%Z))
    (trace_of (pipelines_push sample_api (sample_host Yes) "pipeline.py" []
                 (mkState sample_config [sample_pipeline])))
  /\ In (Echo false ("Version: " ++ str_int 7))
       (trace_of (pipelines_push sample_api (sample_host Yes) "pipeline.py"
                    [] (mkState sample_config [sample_pipeline])))
  /\ 7%Z = 7%Z.
Proof.
  assert (Hup :
    In (UploadPipeline "pipeline.py" [] (Some 7%Z))
      (trace_of (pipelines_push sample_api (sample_host Yes) "pipeline.py"
                   [] (mkState sample_config [sample_pipeline])))).
  { simpl. tauto. }
  assert (Hline :
    In (Echo false ("Version: " ++ str_int 7))
      (trace_of (pipelines_push sample_api (sample_host Yes) "pipeline.py"
                   [] (mkState sample_config [sample_pipeline])))).
  { simpl. tauto. }
  split; [exact Hup | split; [exact Hline | ]].
  exact (push_version_line_is_upload_result _ _ sample_api (sample_host Yes)
           (mkState sample_config [sample_pipeline]) "pipeline.py" []
           7%Z 7%Z Hup Hline).
Defined.

(** X22. In a push whose listing call succeeds, the raw list is echoed
    exactly when debug is on, and only the list that was fetched is ever
    echoed. *)
Theorem push_debug_echoes_listing :
  forall (Remote E : Type) (api : Api Remote E) (host : Host)
         (s : State Remote) (path : string) (files : list string)
         (p : Pipeline) (ps : list PipelineInfo),
    current_workspace (disk s) <> "" ->
    path_exists host path = true ->
    import_pipeline api (disk s) path = inr p ->
    get_pipelines api (disk s) (remote s) = inr ps ->
    (In (EchoPipelines ps) (trace_of (pipelines_push api host path files s))
     <-> is_debug api (disk s) = true)
    /\ (forall ps' : list PipelineInfo,
          In (EchoPipelines ps')
            (trace_of (pipelines_push api host path files s)) ->
          ps' = ps).
Proof.
  intros Remote E api host s path files p ps Hws Hpath Himp Hlist.
  unfold pipelines_push. run_cmd.
  rewrite (eqb_empty_false _ Hws), Hpath. simpl. rewrite Himp. simpl.
  rewrite Hlist. simpl.
  destruct (is_debug api (disk s)); simpl;
    (destruct (get_pipeline api (disk s) (code p) (remote s)) as [e|[i|]];
     simpl;
     [ | | destruct (operator host _); simpl;
           try destruct (create_pipeline api (disk s) (code p) (remote s))
             as [r1 [e1|u1]]; simpl ]);
    try destruct (upload_pipeline api (disk s) path files _)
      as [r2 [e2|n2]]; simpl.
  all: split;
    [ split;
      [ intros Hin; try reflexivity; exfalso; walk_log Hin
      | intros Hd; try discriminate Hd; tauto ]
    | intros ps' Hin; walk_log Hin; now injection Hin ].
Qed.

Lemma push_debug_echoes_listing_witness :
  current_workspace (disk (mkState sample_debug_config
                             ([] : list PipelineInfo))) <> ""
  /\ path_exists (sample_host No) "pipeline.py" = true
  /\ import_pipeline sample_api sample_debug_config "pipeline.py"
     = inr (mkPipeline "X")
  /\ get_pipelines sample_api sample_debug_config [] = inr []
  /\ (In (EchoPipelines [])
        (trace_of (pipelines_push sample_api (sample_host No) "pipeline.py"
                     [] (mkState sample_debug_config [])))
      <-> is_debug sample_api sample_debug_config = true).
Proof.
  assert (Hws : current_workspace
                  (disk (mkState sample_debug_config
                           ([] : list PipelineInfo))) <> "").
  { simpl. discriminate. }
  split; [exact Hws | ].
  repeat (split; [reflexivity | ]).
  apply (push_debug_echoes_listing _ _ sample_api (sample_host No)
           (mkState sample_debug_config []) "pipeline.py" []
           (mkPipeline "X") [] Hws eq_refl eq_refl eq_refl).
Defined.

(** X23. [pipelines list] shows [N/A] for a pipeline exactly when its
    [currentVersion.number] is absent or zero; for every other number [n]
    it shows [v] followed by the decimal text of [n], and that text
    determines [n]. *)
Theorem render_pipeline_version_tag :
  forall p : PipelineInfo,
    (render_pipeline p
     = "* " ++ pi_code p ++ " - " ++ pi_name p ++ " (N/A)"
     <-> number (currentVersion p) = None
         \/ number (currentVersion p) = Some 0%Z)
    /\ (forall n : Z,
          render_pipeline p
          = "* " ++ pi_code p ++ " - " ++ pi_name p
            ++ " (v" ++ str_int n ++ ")"
          <-> number (currentVersion p) = Some n /\ n <> 0%Z).
Proof.
  intros [c nm [[v|]]]; unfold render_pipeline; simpl.
  - destruct (Z.eqb_spec v 0) as [->|Hv]; simpl.
    + split.
      * split; [auto | reflexivity].
      * intros n. split.
        -- intros [= H]. apply append_inv_head in H.
           injection H as H. apply append_inv_head in H. discriminate H.
        -- intros [[= <-] Hn]. now contradiction Hn.
    + split.
      * split.
        -- intros [= H]. apply append_inv_head in H.
           injection H as H. apply append_inv_head in H. discriminate H.
        -- intros [H|[= H]]; [discriminate H | contradiction].
      * intros n. split.
        -- intros [= H]. apply append_inv_head in H.
           injection H as H. apply append_inv_head in H.
           injection H as H.
           apply append_paren_inv, str_int_inj in H. subst. auto.
        -- intros [[= ->] _]. reflexivity.
  - split.
    + split; [auto | reflexivity].
    + intros n. split.
      * intros [= H]. apply append_inv_head in H.
        injection H as H. apply append_inv_head in H. discriminate H.
      * intros [H _]. discriminate H.
Qed.

Lemma render_pipeline_version_tag_witness :
  (number (currentVersion sample_pipeline) = Some 3%Z /\ 3%Z <> 0%Z)
  /\ render_pipeline sample_pipeline = "* X - Pipeline X (v3)".
Proof.
  assert (H : number (currentVersion sample_pipeline) = Some 3%Z
              /\ 3%Z <> 0%Z).
  { split; [reflexivity | discriminate]. }
  split; [exact H | ].
  destruct (render_pipeline_version_tag sample_pipeline) as [_ Htag].
  apply (Htag 3%Z) in H. exact H.
Defined.
